(** * claude-journal: the MCP server handlers and what they rely on

    A shallow embedding of [src/claude_journal/server.py] (the handlers
    [handle_journal_write] and [handle_journal_search]) together with the
    collaborators the handlers call: the journal file operations, the entry
    codec, the search-index staleness test and the git operations.

    Text is modelled as [string], a sequence of 8-bit characters; the
    character classes of Python ([str.strip], [\w], [re.IGNORECASE]) are the
    ASCII ones. *)

From Stdlib Require Import String Ascii List Bool ZArith NArith Lia.
From stdpp Require Import base gmap strings.
Import ListNotations.

Local Open Scope stdpp_scope.

#[local] Arguments String.append !s1 s2 : simpl nomatch.

(** ** Python's [str] operations used by the program *)

Module PyStr.

Definition nl : ascii := "010"%char.
Definition NL : string := String nl "".

(** [c.isspace()] on the ASCII range: TAB, LF, VT, FF, CR, FS, GS, RS, US
    and the space. *)
Definition is_space (c : ascii) : bool :=
  let n := N_of_ascii c in
  ((9 <=? n) && (n <=? 13) || (28 <=? n) && (n <=? 32))%N.

Definition is_upper (c : ascii) : bool :=
  let n := N_of_ascii c in ((65 <=? n) && (n <=? 90))%N.

Definition is_lower (c : ascii) : bool :=
  let n := N_of_ascii c in ((97 <=? n) && (n <=? 122))%N.

Definition is_digit (c : ascii) : bool :=
  let n := N_of_ascii c in ((48 <=? n) && (n <=? 57))%N.

(** The class [\w] on the ASCII range: letters, digits and underscore. *)
Definition is_word (c : ascii) : bool :=
  is_upper c || is_lower c || is_digit c || Ascii.eqb c "_"%char.

Definition is_ascii (c : ascii) : bool := (N_of_ascii c <? 128)%N.

(** A lowercase hexadecimal digit. *)
Definition is_hex (c : ascii) : bool :=
  let n := N_of_ascii c in
  is_digit c || ((97 <=? n) && (n <=? 102))%N.

Definition lower_char (c : ascii) : ascii :=
  if is_upper c then ascii_of_N (N_of_ascii c + 32) else c.

Fixpoint lower (s : string) : string :=
  match s with
  | EmptyString => EmptyString
  | String c s' => String (lower_char c) (lower s')
  end.

Fixpoint forallb_str (p : ascii -> bool) (s : string) : bool :=
  match s with
  | EmptyString => true
  | String c s' => p c && forallb_str p s'
  end.

(** [s.startswith(p)] *)
Fixpoint startswith (p s : string) : bool :=
  match p with
  | EmptyString => true
  | String a p' =>
      match s with
      | EmptyString => false
      | String b s' => Ascii.eqb a b && startswith p' s'
      end
  end.

(** [s[n:]] *)
Fixpoint drop (n : nat) (s : string) : string :=
  match n with
  | O => s
  | S n' => match s with
            | EmptyString => EmptyString
            | String _ s' => drop n' s'
            end
  end.

(** [s[:n]] *)
Fixpoint take (n : nat) (s : string) : string :=
  match n with
  | O => EmptyString
  | S n' => match s with
            | EmptyString => EmptyString
            | String c s' => String c (take n' s')
            end
  end.

(** [sub in s] *)
Fixpoint contains (sub s : string) : bool :=
  startswith sub s ||
  match s with
  | EmptyString => false
  | String _ s' => contains sub s'
  end.

(** [s.split(sep)] for a non-empty [sep]: [split_aux] returns the chunk
    that is being read and the chunks after it; [skip] counts the
    characters of a separator occurrence that are still to be passed
    over. *)
Fixpoint split_aux (sep s : string) (skip : nat) : string * list string :=
  match s with
  | EmptyString => (EmptyString, [])
  | String c s' =>
      match skip with
      | S k => split_aux sep s' k
      | O =>
          if startswith sep s
          then let '(cur, rest) := split_aux sep s' (String.length sep - 1) in
               (EmptyString, cur :: rest)
          else let '(cur, rest) := split_aux sep s' 0 in
               (String c cur, rest)
      end
  end.

Definition split (sep s : string) : list string :=
  let '(cur, rest) := split_aux sep s 0 in cur :: rest.

(** [s.lstrip()], [s.rstrip()], [s.strip()] *)
Fixpoint lstrip (s : string) : string :=
  match s with
  | EmptyString => EmptyString
  | String c s' => if is_space c then lstrip s' else s
  end.

Fixpoint rstrip (s : string) : string :=
  match s with
  | EmptyString => EmptyString
  | String c s' =>
      match rstrip s' with
      | EmptyString => if is_space c then EmptyString else String c EmptyString
      | r => String c r
      end
  end.

Definition strip (s : string) : string := rstrip (lstrip s).

(** [sep.join(parts)] *)
Fixpoint join (sep : string) (parts : list string) : string :=
  match parts with
  | [] => EmptyString
  | [x] => x
  | x :: rest => x +:+ sep +:+ join sep rest
  end.

(** Truthiness of a [str]: [not s] holds of the empty string only. *)
Definition is_empty (s : string) : bool :=
  match s with EmptyString => true | String _ _ => false end.

(** The longest prefix of characters satisfying [p], and what follows. *)
Fixpoint span (p : ascii -> bool) (s : string) : string * string :=
  match s with
  | EmptyString => (EmptyString, EmptyString)
  | String c s' =>
      if p c then let '(a, b) := span p s' in (String c a, b)
      else (EmptyString, s)
  end.

(** [sep] starts at no position of [a] in [a +:+ t]. *)
Fixpoint no_early (sep a t : string) : bool :=
  match a with
  | EmptyString => true
  | String _ a' => negb (startswith sep (a +:+ t)) && no_early sep a' t
  end.

End PyStr.

Import PyStr.


(** ** The world the handlers run in *)

(** A path is the text [str(path)] gives; [a / b] for a relative [b]. *)
Abbreviation Path := string (only parsing).

Definition path_join (a b : Path) : Path := a +:+ "/" +:+ b.

(** What the remote of a repository will answer to the network legs of a
    pull and of a push. *)
Record Remote := {
  pull_answer : bool * string;
  push_answer : bool * string
}.

(** A git working copy: the fault, if any, that the version-control system
    reports when a commit is created; its remote; the commits made so far,
    each with the file staged and the message. *)
Record Repo := {
  commit_fault : option string;
  remote : option Remote;
  log : list (Path * string)
}.

(** [files]: the text files, by path.  [dirs]: the directories that exist.
    [sidecars]: for a project directory [d], the id recorded in
    [d/.claude/journal.json].  [repos]: the git repositories, by root. *)
Record World := {
  files : gmap string string;
  dirs : gset string;
  sidecars : gmap string string;
  repos : gmap string Repo
}.

(** What a handler reads from its process: [Path.cwd()], the journals
    root ([get_journals_dir()]), the UTC clock already rendered as
    [YYYY-MM-DD HH:MM:SS], and the next 32 bits of the random source. *)
Record Env := {
  cwd : Path;
  journals_dir : Path;
  now : string;
  entropy : N
}.

(** The five steps of a write the specification names.  The log of steps is
    ghost state: a step is recorded when the handler calls the collaborator
    that performs it. *)
Inductive Step := Pull | Append | IndexUpdate | Commit | Push.

Record State := {
  world : World;
  steps : list Step
}.

(** ** A state and exception monad for the handlers *)

Inductive exn :=
| ReError (query : string).   (* [re.error], raised by [re.compile] *)

Inductive outcome (A : Type) :=
| Returned (a : A)
| Raised (e : exn).
Arguments Returned {A} a.
Arguments Raised {A} e.

Definition M (A : Type) : Type := State -> outcome A * State.

Definition ret {A} (a : A) : M A := fun st => (Returned a, st).

Definition raise {A} (e : exn) : M A := fun st => (Raised e, st).

Definition bind {A B} (m : M A) (k : A -> M B) : M B :=
  fun st =>
    match m st with
    | (Returned a, st') => k a st'
    | (Raised e, st') => (Raised e, st')
    end.

(** A collaborator that acts on the world, called without a step mark. *)
Definition lift {A} (f : World -> A * World) : M A :=
  fun st =>
    let '(a, w) := f (world st) in
    (Returned a, {| world := w; steps := steps st |}).

(** The same, recorded as step [s]. *)
Definition step {A} (s : Step) (f : World -> A * World) : M A :=
  fun st =>
    let '(a, w) := f (world st) in
    (Returned a, {| world := w; steps := steps st ++ [s] |}).

(** A collaborator that only reads the world. *)
Definition peek {A} (f : World -> A) : M A :=
  fun st => (Returned (f (world st)), st).

Declare Scope monad_scope.
Delimit Scope monad_scope with monad.
Notation "'let*' x ':=' m 'in' k" := (bind m (fun x => k))
  (at level 10, x pattern, m at level 100, k at level 200) : monad_scope.
Local Open Scope monad_scope.

(** ** [claude_journal.journal] *)

Module Journal.

(** [journal.py] is not among the sources: the definitions of this module
    follow section 4.2 and the data model of the specification, and what
    [tests/test_journal.py] pins down. *)

(** Modelled from the spec: [get_journals_dir] of [journal.py], the fixed
    per-user journals root, here read from the process. *)
Definition get_journals_dir (env : Env) : Path := journals_dir env.

(** Modelled from the spec: [format_entry] of [journal.py], the serialized
    form of an entry,
    [## [<timestamp>] <type>\n\n<content>\n\n---\n]. *)
Definition format_entry (content entry_type timestamp : string) : string :=
  "## [" +:+ timestamp +:+ "] " +:+ entry_type +:+ NL +:+ NL +:+
  content +:+ NL +:+ NL +:+ "---" +:+ NL.

(** Modelled from the spec: [read_journal] of [journal.py], the whole file
    content, or the empty string if the file is absent. *)
Definition read_journal (journal_path : Path) (w : World) : string :=
  default EmptyString (files w !! journal_path).

(** Modelled from the spec: [append_entry] of [journal.py], which encodes a
    new entry with the current timestamp and appends it to the file,
    creating the file if absent. *)
Definition append_entry (env : Env) (journal_path : Path)
    (content entry_type : string) (w : World) : unit * World :=
  (tt, {| files := <[journal_path :=
                      read_journal journal_path w +:+
                      format_entry content entry_type (now env)]> (files w);
          dirs := dirs w;
          sidecars := sidecars w;
          repos := repos w |}).

Definition hex_digit (n : N) : ascii :=
  (if n <? 10 then ascii_of_N (48 + n) else ascii_of_N (87 + n))%N.

(** The [k] low hexadecimal digits of [n], most significant first. *)
Fixpoint hex_of (k : nat) (n : N) : string :=
  match k with
  | O => EmptyString
  | S k' => hex_of k' (n / 16) +:+ String (hex_digit (n mod 16)) EmptyString
  end.

(** Modelled from the spec: [generate_project_id] of [journal.py], a purely
    random 8-character lowercase-hex string, here 32 bits of the random
    source. *)
Definition generate_project_id (env : Env) : string := hex_of 8 (entropy env).

(** Modelled from the spec: [read_project_id] of [journal.py], the id in
    the sidecar of [project_dir], if there is one. *)
Definition read_project_id (project_dir : Path) (w : World) : option string :=
  sidecars w !! project_dir.

(** Modelled from the spec: [write_project_id] of [journal.py], which
    creates the [.claude] directory and writes the sidecar. *)
Definition write_project_id (project_dir : Path) (project_id : string)
    (w : World) : World :=
  {| files := files w;
     dirs := dirs w ∪ {[ path_join project_dir ".claude" ]};
     sidecars := <[project_dir := project_id]> (sidecars w);
     repos := repos w |}.

(** Modelled from the spec: [get_or_create_project_id] of [journal.py]; the
    identity is created lazily on first use and is stable afterwards. *)
Definition get_or_create_project_id (env : Env) (project_dir : Path)
    (w : World) : string * World :=
  match read_project_id project_dir w with
  | Some project_id => (project_id, w)
  | None =>
      let project_id := generate_project_id env in
      (project_id, write_project_id project_dir project_id w)
  end.

(** Modelled from the spec: [get_project_journal_path] of [journal.py],
    [<journalsRoot>/<id>/journal.md]. *)
Definition get_project_journal_path (env : Env) (project_id : string) : Path :=
  path_join (path_join (get_journals_dir env) project_id) "journal.md".

(** Modelled from the spec: [resolve_journal_path] of [journal.py]; for
    [global] a fixed path under the journals root, otherwise the project's
    journal; the parent directory is made ([mkdir -p]). *)
Definition resolve_journal_path (env : Env) (scope : string) (cwd : Path)
    (w : World) : Path * World :=
  let '(parent, w1) :=
    if String.eqb scope "global"
    then (path_join (get_journals_dir env) "global", w)
    else let '(project_id, w') := get_or_create_project_id env cwd w in
         (path_join (get_journals_dir env) project_id, w') in
  (path_join parent "journal.md",
   {| files := files w1;
      dirs := dirs w1 ∪ {[ parent ]};
      sidecars := sidecars w1;
      repos := repos w1 |}).

End Journal.

(** ** [claude_journal.index]: the entry decoder and the staleness test *)

Module Index.

(** The record delimiter of the journal format. *)
Definition delimiter : string := NL +:+ "---" +:+ NL.

Record JournalEntry := {
  timestamp : string;
  entry_type : string;
  content : string
}.

(** Modelled from the spec: the header pattern of [index.py], which is not
    among the sources.  The header is [## [<timestamp>] <word>]: the
    bracketed string right after [## ], a space, and a word. *)
Definition parse_header (s : string) : option (string * string * string) :=
  if startswith "## [" s then
    let '(ts, after_ts) :=
      span (fun c => negb (Ascii.eqb c "]"%char) && negb (Ascii.eqb c nl))
           (drop 4 s) in
    if startswith "] " after_ts then
      let '(ty, rest) := span is_word (drop 2 after_ts) in
      if is_empty ty then None else Some (ts, ty, rest)
    else None
  else None.

(** Modelled from the spec: what [parse_entries_from_markdown] of
    [index.py] does with one chunk between delimiters.  Blank lines
    before the header are passed over; a chunk whose first non-blank line
    is not a header gives no entry.  The content of the entry is the block
    of the chunk, as a search returns it (section 8: a search of the index
    "returns exactly the first entry's block"): the chunk, trimmed. *)
Definition parse_chunk (chunk : string) : option JournalEntry :=
  match parse_header (lstrip chunk) with
  | Some (ts, ty, rest) =>
      Some {| timestamp := ts;
              entry_type := ty;
              content := strip chunk |}
  | None => None
  end.

(** Modelled from the spec: [parse_entries_from_markdown] of [index.py],
    the [decode] of section 4.1, which splits on the delimiter and skips
    the chunks that are not entries. *)
Definition parse_entries_from_markdown (markdown : string) : list JournalEntry :=
  omap parse_chunk (split delimiter markdown).

(** The triples the codec is meant for: a timestamp without [\]] and on
    one line, a type that is a word, and a content of which no line is
    the bare [---] (the format does no escaping). *)
Definition valid_timestamp (ts : string) : bool :=
  forallb_str (fun c => negb (Ascii.eqb c "]"%char) && negb (Ascii.eqb c nl)) ts.

Definition valid_type (ty : string) : bool :=
  negb (is_empty ty) && forallb_str is_word ty.

Definition valid_content (c : string) : bool :=
  negb (contains delimiter (NL +:+ c +:+ NL)).


End Index.

(** ** [claude_journal.git_ops]: a reference implementation *)

Module RefGit.

(** [git_ops.py] is not among the sources: the three operations follow
    section 4.4.  The network legs answer what the [Remote] holds; a
    commit fails when the repository reports a fault. *)

Definition not_a_repository : string := "Not a git repository".
Definition no_remote : string := "No remote configured".

(** Modelled from the spec: [git_pull] of [git_ops.py]. *)
Definition git_pull (path : Path) (w : World) : (bool * string) * World :=
  match repos w !! path with
  | None => ((false, not_a_repository), w)
  | Some r =>
      match remote r with
      | None => ((true, no_remote), w)
      | Some rm => (pull_answer rm, w)
      end
  end.

(** Modelled from the spec: [git_commit] of [git_ops.py], which stages
    exactly [file_path] and creates a commit with [message]. *)
Definition git_commit (repo_path file_path : Path) (message : string)
    (w : World) : (bool * string) * World :=
  match repos w !! repo_path with
  | None => ((false, not_a_repository), w)
  | Some r =>
      match commit_fault r with
      | Some fault => ((false, fault), w)
      | None =>
          ((true, "Changes committed"),
           {| files := files w;
              dirs := dirs w;
              sidecars := sidecars w;
              repos := <[repo_path :=
                          {| commit_fault := commit_fault r;
                             remote := remote r;
                             log := log r ++ [(file_path, message)] |}]>
                       (repos w) |})
      end
  end.

(** Modelled from the spec: [git_push] of [git_ops.py]. *)
Definition git_push (path : Path) (w : World) : (bool * string) * World :=
  match repos w !! path with
  | None => ((false, not_a_repository), w)
  | Some r =>
      match remote r with
      | None => ((true, no_remote), w)
      | Some rm => (push_answer rm, w)
      end
  end.

End RefGit.

(** ** Python's [re]: the fixed header pattern, and plain queries *)

Module PyRe.

(** A match of [\] (\w+)] at the start of [s]: group 1. *)
Definition bracket_word (s : string) : option string :=
  if startswith "] " s then
    let '(word, _) := span is_word (drop 2 s) in
    if is_empty word then None else Some word
  else None.

(** A match of [.*?\] (\w+)] at the start of [s]: the lazy [.*?] grows one
    character at a time, never over a newline. *)
Fixpoint lazy_to_bracket (s : string) : option string :=
  match bracket_word s with
  | Some group1 => Some group1
  | None =>
      match s with
      | EmptyString => None
      | String c s' => if Ascii.eqb c nl then None else lazy_to_bracket s'
      end
  end.

(** [re.search(r"## \[.*?\] (\w+)", s)]: group 1 of the leftmost match,
    [None] when there is no match. *)
Fixpoint search_header (s : string) : option string :=
  match (if startswith "## [" s then lazy_to_bracket (drop 4 s) else None) with
  | Some group1 => Some group1
  | None =>
      match s with
      | EmptyString => None
      | String _ s' => search_header s'
      end
  end.

(** A query without metacharacters: letters, digits, underscore, space. *)
Definition is_plain_char (c : ascii) : bool :=
  is_word c || Ascii.eqb c " "%char.

Definition is_plain (query : string) : bool := forallb_str is_plain_char query.

(** [sub] occurs in [s] up to the case of ASCII letters. *)
Definition contains_ci (sub s : string) : bool :=
  contains (lower sub) (lower s).

(** What the program needs of [re.compile(query, re.IGNORECASE)] and of
    [pattern.search(text)]: a plain query compiles, and is found in an
    ASCII text exactly where it occurs up to letter case. *)
Definition plain_queries_are_literal {pattern : Type}
    (re_compile : string -> option pattern)
    (re_search : pattern -> string -> bool) : Prop :=
  forall query, is_plain query = true ->
    exists p, re_compile query = Some p /\
      forall text, forallb_str is_ascii text = true ->
        re_search p text = contains_ci query text.

(** The engine on plain queries alone; any other query is refused, as
    [re.compile] refuses, for one, an unbalanced parenthesis. *)
Module Plain.
Definition pattern : Type := string.
Definition re_compile (query : string) : option pattern :=
  if is_plain query then Some query else None.
Definition re_search (p : pattern) (text : string) : bool :=
  contains_ci p text.
End Plain.

End PyRe.

(** ** [claude_journal.server]: the two handlers *)

Record TextContent := {
  type : string;
  text : string
}.

(** The [arguments] of a JournalWrite call; [scope] may be left out. *)
Record WriteArguments := {
  w_content : string;
  w_type : string;
  w_scope : option string
}.

(** The [arguments] of a JournalSearch call; [scope] and [type] may be left
    out. *)
Record SearchArguments := {
  s_query : string;
  s_scope : option string;
  s_type : option string
}.

Section Server.

(** [claude_journal.git_ops], as the handlers import it. *)
Variable git_pull : Path -> World -> (bool * string) * World.
Variable git_commit : Path -> Path -> string -> World -> (bool * string) * World.
Variable git_push : Path -> World -> (bool * string) * World.

(** [re.compile(query, re.IGNORECASE)], [None] when it raises [re.error],
    and [pattern.search(text) is not None]. *)
Variable re_pattern : Type.
Variable re_compile : string -> option re_pattern.
Variable re_search : re_pattern -> string -> bool.

Definition text_content (s : string) : list TextContent :=
  [ {| type := "text"; text := s |} ].

Definition handle_journal_write (arguments : WriteArguments) (env : Env)
  : M (list TextContent) :=
  let content := w_content arguments in
  let entry_type := w_type arguments in
  let scope := default "project" (w_scope arguments) in
  let cwd := cwd env in
  let journals_dir := Journal.get_journals_dir env in
  (* Pull from git if remote configured *)
  let* (pull_success, pull_msg) := step Pull (git_pull journals_dir) in
  if negb pull_success then
    ret (text_content ("Warning: " +:+ pull_msg))
  else
    (* Resolve journal path and append entry *)
    let* journal_path := lift (Journal.resolve_journal_path env scope cwd) in
    let* _ := step Append (Journal.append_entry env journal_path content entry_type) in
    (* Commit to git *)
    let commit_msg :=
      "[" +:+ scope +:+ "] " +:+ entry_type +:+ ": " +:+ take 50 content in
    let* (commit_success, commit_msg_result) :=
        step Commit (git_commit journals_dir journal_path commit_msg) in
    if negb commit_success then
      ret (text_content ("Entry written but commit failed: " +:+ commit_msg_result))
    else
      (* Push to git if remote configured *)
      let* (push_success, push_msg) := step Push (git_push journals_dir) in
      if negb push_success then
        ret (text_content
               ("Entry written and committed, but push failed: " +:+ push_msg))
      else
        ret (text_content ("Journal entry written to " +:+ journal_path)).

(** Truthiness of [arguments.get("type")]: a filter is in force when the
    type is given and is not the empty string. *)
Definition type_filter (entry_type : option string) : option string :=
  match entry_type with
  | Some t => if is_empty t then None else Some t
  | None => None
  end.

(** The body of [for entry in entries], with [results] threaded. *)
Fixpoint scan_entries (pattern : re_pattern) (entry_type : option string)
    (entries : list string) (results : list string) : list string :=
  match entries with
  | [] => results
  | entry :: rest =>
      if is_empty (strip entry) then
        scan_entries pattern entry_type rest results
      else if negb (re_search pattern entry) then
        scan_entries pattern entry_type rest results
      else
        match type_filter entry_type with
        | Some wanted =>
            match PyRe.search_header entry with
            | Some group1 =>
                if negb (String.eqb group1 wanted) then
                  scan_entries pattern entry_type rest results
                else
                  scan_entries pattern entry_type rest (results ++ [strip entry])
            | None => scan_entries pattern entry_type rest results
            end
        | None => scan_entries pattern entry_type rest (results ++ [strip entry])
        end
  end.

(** The body of [for journal_path in journals_to_search]. *)
Fixpoint scan_journals (w : World) (pattern : re_pattern)
    (entry_type : option string) (journals_to_search : list Path)
    (results : list string) : list string :=
  match journals_to_search with
  | [] => results
  | journal_path :: rest =>
      let content := Journal.read_journal journal_path w in
      if is_empty content then
        scan_journals w pattern entry_type rest results
      else
        (* Parse entries *)
        let entries := split Index.delimiter content in
        scan_journals w pattern entry_type rest
          (scan_entries pattern entry_type entries results)
  end.

Definition compile (query : string) : M re_pattern :=
  match re_compile query with
  | Some p => ret p
  | None => raise (ReError query)
  end.

(** Determine which journals to search. *)
Definition journals_for (scope : string) (env : Env) : M (list Path) :=
  let journals_to_search :=
    if String.eqb scope "global" || String.eqb scope "both"
    then [path_join (path_join (Journal.get_journals_dir env) "global") "journal.md"]
    else [] in
  if String.eqb scope "project" || String.eqb scope "both" then
    let* project_id := lift (Journal.get_or_create_project_id env (cwd env)) in
    ret (journals_to_search ++ [Journal.get_project_journal_path env project_id])
  else ret journals_to_search.

(** What the handler returns for the [results] it has collected. *)
Definition search_reply (results : list string) : list TextContent :=
  match results with
  | [] => text_content "No matching journal entries found"
  | _ => text_content (join (NL +:+ NL +:+ "---" +:+ NL +:+ NL) results)
  end.

(** The handler after its pull. *)
Definition search_local (arguments : SearchArguments) (env : Env)
  : M (list TextContent) :=
  let query := s_query arguments in
  let scope := default "both" (s_scope arguments) in
  let entry_type := s_type arguments in
  let* journals_to_search := journals_for scope env in
  (* Search journals *)
  let* pattern := compile query in
  let* results :=
    peek (fun w => scan_journals w pattern entry_type journals_to_search []) in
  ret (search_reply results).

Definition handle_journal_search (arguments : SearchArguments) (env : Env)
  : M (list TextContent) :=
  (* Pull from git if remote configured *)
  let* _ := step Pull (git_pull (Journal.get_journals_dir env)) in
  search_local arguments env.

(** *** The same search, stated apart from the loops *)

(** Whether the header of [entry] carries the type [wanted]. *)
Definition type_matches (wanted entry : string) : bool :=
  match PyRe.search_header entry with
  | Some group1 => String.eqb group1 wanted
  | None => false
  end.

(** The test an entry passes to be appended to [results]. *)
Definition selected (pattern : re_pattern) (entry_type : option string)
    (entry : string) : bool :=
  negb (is_empty (strip entry)) && re_search pattern entry &&
  match type_filter entry_type with
  | Some wanted => type_matches wanted entry
  | None => true
  end.

(** The chunks of the journals searched, in the order they are read. *)
Definition entries_of (w : World) (journals_to_search : list Path)
  : list string :=
  flat_map
    (fun journal_path =>
       let content := Journal.read_journal journal_path w in
       if is_empty content then [] else split Index.delimiter content)
    journals_to_search.

(** The project id a search uses: the recorded one, else a fresh one. *)
Definition project_id_of (env : Env) (w : World) : string :=
  default (Journal.generate_project_id env)
          (Journal.read_project_id (cwd env) w).

Definition journals_of (scope : string) (env : Env) (w : World) : list Path :=
  (if String.eqb scope "global" || String.eqb scope "both"
   then [path_join (path_join (Journal.get_journals_dir env) "global") "journal.md"]
   else []) ++
  (if String.eqb scope "project" || String.eqb scope "both"
   then [Journal.get_project_journal_path env (project_id_of env w)]
   else []).

(** The world once the journals to search are determined: a project
    search has looked up, or created, the project id. *)
Definition world_after_journals (scope : string) (env : Env) (w : World) : World :=
  if String.eqb scope "project" || String.eqb scope "both"
  then snd (Journal.get_or_create_project_id env (cwd env) w)
  else w.

End Server.

(** ** Matching with stemming, as the specification words it *)

Module Stemming.

Definition starts_nonword (s : string) : bool :=
  match s with
  | EmptyString => true
  | String c _ => negb (is_word c)
  end.

Fixpoint ends_nonword (s : string) : bool :=
  match s with
  | EmptyString => true
  | String c EmptyString => negb (is_word c)
  | String _ s' => ends_nonword s'
  end.

(** [word] stands in [text] as a word of its own. *)
Definition has_word (word text : string) : Prop :=
  exists before after,
    text = before +:+ word +:+ after /\
    ends_nonword before = true /\ starts_nonword after = true.

(** For the stemmer [stem]: a query finds every entry that contains a
    word with the stem of the query, whatever the letter case.  [found]
    gives the results of a query over the chunks [entries]. *)
Definition finds_same_stem (stem : string -> string)
    (found : string -> list string) (entries : list string) : Prop :=
  forall query entry word,
    In entry entries -> has_word word entry ->
    stem (lower word) = stem (lower query) ->
    In (strip entry) (found query).

End Stemming.

(** ** Concrete runs *)

Module Scenario.

Definition env : Env :=
  {| cwd := "/work/project";
     journals_dir := "/home/u/.claude/journal";
     now := "2025-10-06 14:30:45";
     entropy := 2751463113%N |}.

Definition global_journal : Path := "/home/u/.claude/journal/global/journal.md".

Definition two_entries : string :=
  "## [2025-10-06T14:30:00Z] insight" +:+ NL +:+ NL +:+
  "Implementing the authentication flow." +:+ NL +:+ NL +:+ "---" +:+ NL +:+
  "## [2025-10-06T15:00:00Z] decision" +:+ NL +:+ NL +:+
  "We implement the cache with PostgreSQL." +:+ NL +:+ NL +:+ "---" +:+ NL.

Definition world_with (rs : gmap string Repo) : World :=
  {| files := {[ global_journal := two_entries ]};
     dirs := {[ "/home/u/.claude/journal/global" ]};
     sidecars := ∅;
     repos := rs |}.

Definition start (rs : gmap string Repo) : State :=
  {| world := world_with rs; steps := [] |}.

(** The journals directory is not a git repository. *)
Definition no_repo : gmap string Repo := ∅.

(** A repository without a remote. *)
Definition local_repo : gmap string Repo :=
  {[ "/home/u/.claude/journal" :=
       {| commit_fault := None; remote := None; log := [] |} ]}.

(** A repository in which commits fail. *)
Definition locked_repo : gmap string Repo :=
  {[ "/home/u/.claude/journal" :=
       {| commit_fault := Some "Unable to create index.lock";
          remote := None; log := [] |} ]}.

(** A repository whose remote has diverged: the push is rejected. *)
Definition diverged_repo : gmap string Repo :=
  {[ "/home/u/.claude/journal" :=
       {| commit_fault := None;
          remote := Some {| pull_answer := (true, "Already up to date");
                            push_answer := (false, "rejected (fetch first)") |};
          log := [] |} ]}.

Definition write_args : WriteArguments :=
  {| w_content := "User prefers explicit error handling";
     w_type := "preference";
     w_scope := Some "global" |}.

Definition new_entry : string :=
  "## [2025-10-06 14:30:45] preference" +:+ NL +:+ NL +:+
  "User prefers explicit error handling" +:+ NL +:+ NL +:+ "---" +:+ NL.

Definition write (rs : gmap string Repo) : outcome (list TextContent) * State :=
  handle_journal_write RefGit.git_pull RefGit.git_commit RefGit.git_push
    write_args env (start rs).

Definition search (rs : gmap string Repo) (arguments : SearchArguments)
  : outcome (list TextContent) * State :=
  handle_journal_search RefGit.git_pull
    PyRe.Plain.pattern PyRe.Plain.re_compile PyRe.Plain.re_search
    arguments env (start rs).

(** What a search of the global journal for a plain [query] collects. *)
Definition found (query : string) : list string :=
  match PyRe.Plain.re_compile query with
  | Some p =>
      scan_journals PyRe.Plain.pattern PyRe.Plain.re_search
        (world_with no_repo) p None [global_journal] []
  | None => []
  end.

Definition global_search (query : string) (entry_type : option string)
  : SearchArguments :=
  {| s_query := query; s_scope := Some "global"; s_type := entry_type |}.

Definition first_entry : string :=
  "## [2025-10-06T14:30:00Z] insight" +:+ NL +:+ NL +:+
  "Implementing the authentication flow.".

Definition second_entry : string :=
  "## [2025-10-06T15:00:00Z] decision" +:+ NL +:+ NL +:+
  "We implement the cache with PostgreSQL.".

End Scenario.

(** ** The tool layer: [list_tools] and [call_tool] *)

(** One entry of the [properties] of an input schema. *)
Record SchemaProperty := {
  prop_type : string;
  enum : option (list string);
  default_value : option string;
  prop_description : string
}.

Record InputSchema := {
  schema_type : string;
  properties : list (string * SchemaProperty);
  required : list string
}.

Record Tool := {
  name : string;
  description : string;
  inputSchema : InputSchema
}.

Definition entry_types : list string :=
  ["insight"; "failure"; "decision"; "preference"; "todo"].

(** The first tool [list_tools] returns. *)
Definition journal_write_tool : Tool :=
  {| name := "JournalWrite";
     description :=
       "Write an entry to the journal. Entries are persisted across conversations.";
     inputSchema :=
       {| schema_type := "object";
          properties :=
            [ ("content",
               {| prop_type := "string"; enum := None; default_value := None;
                  prop_description := "The journal entry content" |});
              ("type",
               {| prop_type := "string"; enum := Some entry_types;
                  default_value := None;
                  prop_description := "The type of journal entry" |});
              ("scope",
               {| prop_type := "string"; enum := Some ["global"; "project"];
                  default_value := Some "project";
                  prop_description :=
                    "Scope of the journal entry (global or project-specific)" |}) ];
          required := ["content"; "type"] |} |}.

(** The second tool [list_tools] returns. *)
Definition journal_search_tool : Tool :=
  {| name := "JournalSearch";
     description :=
       "Search journal entries. Use this to recall past insights, decisions, and learnings.";
     inputSchema :=
       {| schema_type := "object";
          properties :=
            [ ("query",
               {| prop_type := "string"; enum := None; default_value := None;
                  prop_description := "Text or regex pattern to search for" |});
              ("scope",
               {| prop_type := "string"; enum := Some ["global"; "project"; "both"];
                  default_value := Some "both";
                  prop_description := "Which journal(s) to search" |});
              ("type",
               {| prop_type := "string"; enum := Some entry_types;
                  default_value := None;
                  prop_description := "Filter by entry type (optional)" |}) ];
          required := ["query"] |} |}.

(** List available MCP tools. *)
Definition list_tools : list Tool := [journal_write_tool; journal_search_tool].

(** What a tool call can raise: [KeyError] from [arguments[key]],
    [ValueError] from [call_tool], or what a handler raises. *)
Inductive tool_exn :=
| KeyError (key : string)
| ValueError (msg : string)
| HandlerError (e : exn).

Inductive tool_outcome :=
| ToolReturned (reply : list TextContent)
| ToolRaised (e : tool_exn).

(** The reads a handler makes of its [arguments] dict, in the order of the
    source: [arguments["content"]], [arguments["type"]],
    [arguments.get("scope", ...)]. *)
Definition write_arguments (arguments : gmap string string)
  : tool_exn + WriteArguments :=
  match arguments !! "content" with
  | None => inl (KeyError "content")
  | Some content =>
      match arguments !! "type" with
      | None => inl (KeyError "type")
      | Some entry_type =>
          inr {| w_content := content;
                 w_type := entry_type;
                 w_scope := arguments !! "scope" |}
      end
  end.

(** [arguments["query"]], [arguments.get("scope", ...)],
    [arguments.get("type")]. *)
Definition search_arguments (arguments : gmap string string)
  : tool_exn + SearchArguments :=
  match arguments !! "query" with
  | None => inl (KeyError "query")
  | Some query =>
      inr {| s_query := query;
             s_scope := arguments !! "scope";
             s_type := arguments !! "type" |}
  end.

Definition tool_result (r : outcome (list TextContent) * State)
  : tool_outcome * State :=
  match r with
  | (Returned reply, st) => (ToolReturned reply, st)
  | (Raised e, st) => (ToolRaised (HandlerError e), st)
  end.

Section Tools.

Variable git_pull : Path -> World -> (bool * string) * World.
Variable git_commit : Path -> Path -> string -> World -> (bool * string) * World.
Variable git_push : Path -> World -> (bool * string) * World.
Variable re_pattern : Type.
Variable re_compile : string -> option re_pattern.
Variable re_search : re_pattern -> string -> bool.

(** Handle tool calls. *)
Definition call_tool (name : string) (arguments : gmap string string)
    (env : Env) (st : State) : tool_outcome * State :=
  if String.eqb name "JournalWrite" then
    match write_arguments arguments with
    | inl e => (ToolRaised e, st)
    | inr a =>
        tool_result (handle_journal_write git_pull git_commit git_push a env st)
    end
  else if String.eqb name "JournalSearch" then
    match search_arguments arguments with
    | inl e => (ToolRaised e, st)
    | inr a =>
        tool_result
          (handle_journal_search git_pull re_pattern re_compile re_search a env st)
    end
  else
    (ToolRaised (ValueError ("Unknown tool: " +:+ name)), st).

End Tools.

(** The arguments carry every key the schema requires. *)
Definition has_required (schema : InputSchema) (arguments : gmap string string)
  : Prop :=
  forall key, In key (required schema) -> is_Some (arguments !! key).

(** ** More concrete runs *)

Module Runs.

(** A state in which the journals directory is a repository without a
    remote and no journal has been written yet. *)
Definition fresh : State :=
  {| world := {| files := ∅; dirs := ∅; sidecars := ∅;
                 repos := Scenario.local_repo |};
     steps := [] |}.

Definition project_write : WriteArguments :=
  {| w_content := "Chose PostgreSQL for the database";
     w_type := "decision";
     w_scope := None |}.

Definition global_write : WriteArguments :=
  {| w_content := "Chose PostgreSQL for the database";
     w_type := "decision";
     w_scope := Some "global" |}.

Definition written_block : string :=
  "## [2025-10-06 14:30:45] decision" +:+ NL +:+ NL +:+
  "Chose PostgreSQL for the database".

Definition write (arguments : WriteArguments) (st : State)
  : outcome (list TextContent) * State :=
  handle_journal_write RefGit.git_pull RefGit.git_commit RefGit.git_push
    arguments Scenario.env st.

Definition search (arguments : SearchArguments) (st : State)
  : outcome (list TextContent) * State :=
  handle_journal_search RefGit.git_pull
    PyRe.Plain.pattern PyRe.Plain.re_compile PyRe.Plain.re_search
    arguments Scenario.env st.

Definition call (name : string) (arguments : gmap string string) (st : State)
  : tool_outcome * State :=
  call_tool RefGit.git_pull RefGit.git_commit RefGit.git_push
    PyRe.Plain.pattern PyRe.Plain.re_compile PyRe.Plain.re_search
    name arguments Scenario.env st.

End Runs.

(** * Properties *)

(** ** Facts on strings *)

Section StrFacts.

Lemma app_assoc_str (a b c : string) : (a +:+ b) +:+ c = a +:+ (b +:+ c).
Proof. induction a as [|x a IH]; simpl; [reflexivity | now rewrite IH]. Qed.

Lemma app_nil_r_str (a : string) : a +:+ "" = a.
Proof. induction a as [|x a IH]; simpl; [reflexivity | now rewrite IH]. Qed.

Lemma startswith_refl (s t : string) : startswith s (s +:+ t) = true.
Proof.
  induction s as [|x s IH]; simpl; [reflexivity |].
  now rewrite Ascii.eqb_refl, IH.
Qed.

Lemma drop_app_length (s t : string) : drop (String.length s) (s +:+ t) = t.
Proof. induction s as [|x s IH]; simpl; [reflexivity | exact IH]. Qed.

Lemma split_aux_skip_all (sep s : string) :
  split_aux sep s (String.length s) = (EmptyString, []).
Proof. induction s as [|x s IH]; simpl; [reflexivity | exact IH]. Qed.

Lemma split_aux_terminated (c0 : ascii) (sep' a : string) :
  no_early (String c0 sep') a (String c0 sep') = true ->
  split_aux (String c0 sep') (a +:+ String c0 sep') 0 = (a, [EmptyString]).
Proof.
  induction a as [|x a IH]; intros H.
  - change (EmptyString +:+ String c0 sep') with (String c0 sep').
    cbn [split_aux].
    rewrite <- (app_nil_r_str (String c0 sep')) at 2.
    rewrite startswith_refl.
    cbn [String.length]. rewrite Nat.sub_1_r. cbn [Nat.pred].
    now rewrite split_aux_skip_all.
  - cbn [no_early] in H. apply andb_true_iff in H as [H1 H2].
    apply negb_true_iff in H1.
    change (String x a +:+ String c0 sep')
      with (String x (a +:+ String c0 sep')) in *.
    cbn [split_aux]. rewrite H1. now rewrite (IH H2).
Qed.

Lemma no_early_app (sep x y t : string) :
  no_early sep (x +:+ y) t = no_early sep x (y +:+ t) && no_early sep y t.
Proof.
  induction x as [|c x IH]; [reflexivity |].
  change (String c x +:+ y) with (String c (x +:+ y)).
  cbn [no_early]. rewrite IH.
  change (String c (x +:+ y) +:+ t) with (String c ((x +:+ y) +:+ t)).
  change (String c x +:+ (y +:+ t)) with (String c (x +:+ (y +:+ t))).
  now rewrite app_assoc_str, andb_assoc.
Qed.

Lemma no_early_other_chars (c0 : ascii) (sep' x t : string) :
  forallb_str (fun c => negb (Ascii.eqb c c0)) x = true ->
  no_early (String c0 sep') x t = true.
Proof.
  induction x as [|c x IH]; [reflexivity |].
  cbn [forallb_str]. intros H. apply andb_true_iff in H as [H1 H2].
  cbn [no_early]. rewrite (IH H2), andb_true_r.
  change (String c x +:+ t) with (String c (x +:+ t)).
  cbn [startswith]. rewrite Ascii.eqb_sym.
  apply negb_true_iff in H1. now rewrite H1.
Qed.

Lemma span_app (p : ascii -> bool) (x : string) (c : ascii) (y : string) :
  forallb_str p x = true -> p c = false ->
  span p (x +:+ String c y) = (x, String c y).
Proof.
  intros Hx Hc. induction x as [|a x IH].
  - simpl. now rewrite Hc.
  - cbn [forallb_str] in Hx. apply andb_true_iff in Hx as [Ha Hx].
    change (String a x +:+ String c y) with (String a (x +:+ String c y)).
    cbn [span]. now rewrite Ha, (IH Hx).
Qed.

Lemma forallb_str_app (p : ascii -> bool) (x y : string) :
  forallb_str p (x +:+ y) = forallb_str p x && forallb_str p y.
Proof.
  induction x as [|c x IH]; simpl; [reflexivity |].
  now rewrite IH, andb_assoc.
Qed.

Lemma forallb_str_impl (p q : ascii -> bool) (s : string) :
  (forall c, p c = true -> q c = true) ->
  forallb_str p s = true -> forallb_str q s = true.
Proof.
  intros Hpq. induction s as [|c s IH]; simpl; [reflexivity |].
  intros H. apply andb_true_iff in H as [H1 H2].
  now rewrite (Hpq c H1), (IH H2).
Qed.

Lemma is_word_not_nl (c : ascii) : is_word c = true -> Ascii.eqb c nl = false.
Proof.
  intros H. destruct (Ascii.eqb_spec c nl) as [-> | _]; [discriminate | reflexivity].
Qed.

(** A delimiter that starts inside a text ending with a newline lies
    within the text: it cannot run over into what follows. *)
Lemma startswith_delimiter_ext (x : ascii) (w t : string) :
  startswith Index.delimiter (String x (w +:+ NL)) = false ->
  startswith Index.delimiter (String x ((w +:+ NL) +:+ t)) = false.
Proof.
  destruct w as [|c2 [|c3 [|c4 [|c5 w]]]]; cbn;
    repeat (case (Ascii.eqb _ _); cbn); auto.
Qed.

Lemma no_early_delimiter (v t : string) :
  contains Index.delimiter (v +:+ NL) = false ->
  startswith Index.delimiter (NL +:+ t) = false ->
  no_early Index.delimiter (v +:+ NL) t = true.
Proof.
  intros H Ht. induction v as [|x v IH].
  - cbn [String.append no_early NL]. cbn [String.append NL] in Ht.
    now rewrite Ht.
  - change (String x v +:+ NL) with (String x (v +:+ NL)) in *.
    cbn [contains] in H. apply orb_false_iff in H as [H1 H2].
    cbn [no_early]. rewrite (IH H2), andb_true_r.
    change (String x (v +:+ NL) +:+ t) with (String x ((v +:+ NL) +:+ t)).
    now rewrite (startswith_delimiter_ext _ _ _ H1).
Qed.

Lemma length_app_str (a b : string) :
  String.length (a +:+ b) = String.length a + String.length b.
Proof. induction a as [|x a IH]; simpl; [reflexivity | now rewrite IH]. Qed.

Lemma hex_of_length (k : nat) (n : N) : String.length (Journal.hex_of k n) = k.
Proof.
  revert n. induction k as [|k IH]; intros n; cbn [Journal.hex_of].
  - reflexivity.
  - rewrite length_app_str, IH. cbn. lia.
Qed.

Lemma hex_digit_is_hex (n : N) : (n < 16)%N -> is_hex (Journal.hex_digit n) = true.
Proof.
  intros H.
  assert (Hcases : In n [0; 1; 2; 3; 4; 5; 6; 7; 8; 9; 10; 11; 12; 13; 14; 15]%N).
  { cbn. lia. }
  cbn in Hcases.
  repeat (destruct Hcases as [<- | Hcases]; [reflexivity |]).
  contradiction.
Qed.

Lemma hex_of_is_hex (k : nat) (n : N) :
  forallb_str is_hex (Journal.hex_of k n) = true.
Proof.
  revert n. induction k as [|k IH]; intros n; cbn [Journal.hex_of].
  - reflexivity.
  - rewrite forallb_str_app, IH. cbn [forallb_str andb].
    rewrite hex_digit_is_hex; [reflexivity |].
    apply N.mod_lt. discriminate.
Qed.

End StrFacts.

(** ** The entry codec *)

Lemma format_entry_shape (c ty ts : string) :
  Journal.format_entry c ty ts =
  (("## [" +:+ ts +:+ "] " +:+ ty) +:+ NL +:+ (String nl c +:+ NL))
  +:+ Index.delimiter.
Proof.
  unfold Journal.format_entry, Index.delimiter.
  rewrite !app_assoc_str. reflexivity.
Qed.







(** ** Running the monad *)

Lemma bind_ret {A B} (a : A) (k : A -> M B) (st : State) :
  bind (ret a) k st = k a st.
Proof. reflexivity. Qed.

Lemma bind_raise {A B} (e : exn) (k : A -> M B) (st : State) :
  bind (raise e) k st = (Raised e, st).
Proof. reflexivity. Qed.

Lemma bind_step {A B} (s : Step) (f : World -> A * World) (k : A -> M B)
    (st : State) :
  bind (step s f) k st
  = k (fst (f (world st)))
      {| world := snd (f (world st)); steps := steps st ++ [s] |}.
Proof. unfold bind, step. now destruct (f (world st)). Qed.

Lemma bind_lift {A B} (f : World -> A * World) (k : A -> M B) (st : State) :
  bind (lift f) k st
  = k (fst (f (world st))) {| world := snd (f (world st)); steps := steps st |}.
Proof. unfold bind, lift. now destruct (f (world st)). Qed.

Lemma bind_peek {A B} (f : World -> A) (k : A -> M B) (st : State) :
  bind (peek f) k st = k (f (world st)) st.
Proof. reflexivity. Qed.

Ltac run_monad :=
  repeat (progress
    (cbn beta iota delta [fst snd world steps negb ret raise];
     repeat first
       [ rewrite bind_step | rewrite bind_lift | rewrite bind_ret
       | rewrite bind_peek | rewrite bind_raise ])).

(** ** JournalWrite *)

Section WriteFacts.

Variable git_pull : Path -> World -> (bool * string) * World.
Variable git_commit : Path -> Path -> string -> World -> (bool * string) * World.
Variable git_push : Path -> World -> (bool * string) * World.

(** C1, as the code has it.  When the pull fails the handler stops there:
    it returns the warning alone, and the world is the one the pull left
    (nothing is resolved, appended, committed or pushed). *)
Theorem write_pull_failure_warns_only
    (arguments : WriteArguments) (env : Env) (st : State)
    (pull_msg : string) (w1 : World) :
  git_pull (Journal.get_journals_dir env) (world st) = ((false, pull_msg), w1) ->
  handle_journal_write git_pull git_commit git_push arguments env st
  = (Returned (text_content ("Warning: " +:+ pull_msg)),
     {| world := w1; steps := steps st ++ [Pull] |}).
Proof.
  intros Hpull. unfold handle_journal_write. cbv zeta.
  run_monad. rewrite Hpull. reflexivity.
Qed.

(** C2, as the code has it.  The steps of a write are, in order: the
    pull; then, if and only if the pull succeeded, the append and the
    commit; then, if and only if the commit succeeded, the push.  The step
    log is fixed by the answers of the pull and of the commit. *)
Theorem write_steps_sequence
    (arguments : WriteArguments) (env : Env) (st : State) :
  let scope := default "project" (w_scope arguments) in
  let pulled := git_pull (Journal.get_journals_dir env) (world st) in
  let resolved := Journal.resolve_journal_path env scope (cwd env) (snd pulled) in
  let journal_path := fst resolved in
  let w3 := snd (Journal.append_entry env journal_path (w_content arguments)
                   (w_type arguments) (snd resolved)) in
  let commit_msg :=
    "[" +:+ scope +:+ "] " +:+ w_type arguments +:+ ": " +:+
    take 50 (w_content arguments) in
  let committed :=
    git_commit (Journal.get_journals_dir env) journal_path commit_msg w3 in
  steps (snd (handle_journal_write git_pull git_commit git_push
                arguments env st))
  = steps st ++
    (if fst (fst pulled)
     then if fst (fst committed)
          then [Pull; Append; Commit; Push]
          else [Pull; Append; Commit]
     else [Pull]).
Proof.
  intros scope pulled resolved journal_path w3 commit_msg committed.
  unfold handle_journal_write. cbv zeta. run_monad.
  fold scope. fold pulled.
  destruct (fst pulled) as [pull_success pull_msg].
  destruct pull_success; run_monad; [| reflexivity].
  fold resolved. fold journal_path. fold w3. fold commit_msg. fold committed.
  destruct (fst committed) as [commit_success commit_msg_result].
  destruct commit_success; run_monad.
  - destruct (fst (git_push (Journal.get_journals_dir env) (snd committed)))
      as [push_success push_msg].
    destruct push_success; run_monad; now rewrite <- !List.app_assoc.
  - now rewrite <- !List.app_assoc.
Qed.

(** The commit and the push act on the repository, not on the working
    files. *)
Hypothesis git_commit_keeps_files :
  forall repo_path file_path message w,
    files (snd (git_commit repo_path file_path message w)) = files w.
Hypothesis git_push_keeps_files :
  forall path w, files (snd (git_push path w)) = files w.

(** C4. Once the pull has succeeded the entry is appended, and it stays:
    in the final world the journal is what it was after the pull followed
    by the new entry, whatever the commit and the push answer.  A failed
    commit, or a failed push, shows only in the reply, which names the
    step and carries its message. *)
Theorem write_append_survives_commit_push_failure
    (arguments : WriteArguments) (env : Env) (st : State)
    (pull_msg : string) (w1 : World) :
  git_pull (Journal.get_journals_dir env) (world st) = ((true, pull_msg), w1) ->
  let scope := default "project" (w_scope arguments) in
  let resolved := Journal.resolve_journal_path env scope (cwd env) w1 in
  let journal_path := fst resolved in
  let w3 := snd (Journal.append_entry env journal_path (w_content arguments)
                   (w_type arguments) (snd resolved)) in
  let commit_msg :=
    "[" +:+ scope +:+ "] " +:+ w_type arguments +:+ ": " +:+
    take 50 (w_content arguments) in
  Journal.read_journal journal_path
    (world (snd (handle_journal_write git_pull git_commit git_push
                   arguments env st)))
  = Journal.read_journal journal_path w1 +:+
    Journal.format_entry (w_content arguments) (w_type arguments) (now env)
  /\
  (forall m w4,
      git_commit (Journal.get_journals_dir env) journal_path commit_msg w3
      = ((false, m), w4) ->
      fst (handle_journal_write git_pull git_commit git_push arguments env st)
      = Returned (text_content ("Entry written but commit failed: " +:+ m)))
  /\
  (forall m1 w4 m w5,
      git_commit (Journal.get_journals_dir env) journal_path commit_msg w3
      = ((true, m1), w4) ->
      git_push (Journal.get_journals_dir env) w4 = ((false, m), w5) ->
      fst (handle_journal_write git_pull git_commit git_push arguments env st)
      = Returned (text_content
                    ("Entry written and committed, but push failed: " +:+ m))).
Proof.
  intros Hpull scope resolved journal_path w3 commit_msg.
  assert (Hfiles : Journal.read_journal journal_path w3
                   = Journal.read_journal journal_path w1 +:+
                     Journal.format_entry (w_content arguments)
                       (w_type arguments) (now env)).
  { subst w3 journal_path resolved.
    unfold Journal.resolve_journal_path.
    destruct (String.eqb scope "global").
    - cbn. unfold Journal.read_journal at 1. cbn.
      now rewrite lookup_insert_eq.
    - unfold Journal.get_or_create_project_id, Journal.read_project_id.
      destruct (sidecars w1 !! cwd env); cbn;
        unfold Journal.read_journal at 1; cbn;
        now rewrite lookup_insert_eq. }
  unfold handle_journal_write. cbv zeta. run_monad.
  rewrite Hpull. run_monad.
  fold scope. fold resolved. fold journal_path. fold w3. fold commit_msg.
  pose proof (git_commit_keeps_files (Journal.get_journals_dir env)
                journal_path commit_msg w3) as Hc.
  destruct (git_commit (Journal.get_journals_dir env) journal_path commit_msg w3)
    as [[commit_success commit_msg_result] w4].
  cbn [snd] in Hc.
  destruct commit_success; run_monad.
  - pose proof (git_push_keeps_files (Journal.get_journals_dir env) w4) as Hp.
    destruct (git_push (Journal.get_journals_dir env) w4)
      as [[push_success push_msg] w5] eqn:Hpush.
    cbn [snd] in Hp.
    split; [| split].
    + rewrite <- Hfiles. unfold Journal.read_journal.
      destruct push_success; run_monad; now rewrite Hp, Hc.
    + intros m w4' H. discriminate H.
    + intros m1 w4' m w5' H1 H2. injection H1 as _ <-.
      rewrite Hpush in H2. injection H2 as -> -> _. reflexivity.
  - split; [| split].
    + rewrite <- Hfiles. unfold Journal.read_journal.
      run_monad. now rewrite Hc.
    + intros m w4' H. injection H as <- _. reflexivity.
    + intros m1 w4' m w5' H1. discriminate H1.
Qed.

End WriteFacts.

(** C1, as stated, fails: with a journals directory that is not a git
    repository the pull fails, and the journal log is left as it was; the
    new entry is not in it. *)
Lemma write_pull_failure_skips_append :
  let st' := snd (Scenario.write Scenario.no_repo) in
  fst (fst (RefGit.git_pull (journals_dir Scenario.env)
              (Scenario.world_with Scenario.no_repo))) = false /\
  fst (Scenario.write Scenario.no_repo)
    = Returned (text_content "Warning: Not a git repository") /\
  Journal.read_journal Scenario.global_journal (world st') = Scenario.two_entries /\
  Journal.read_journal Scenario.global_journal (world st')
    <> Scenario.two_entries +:+ Scenario.new_entry.
Proof.
  vm_compute. repeat split; try reflexivity. discriminate.
Qed.

Lemma write_pull_failure_warns_only_witness :
  Scenario.write Scenario.no_repo
  = (Returned (text_content "Warning: Not a git repository"),
     {| world := Scenario.world_with Scenario.no_repo; steps := [Pull] |}).
Proof.
  apply (write_pull_failure_warns_only RefGit.git_pull RefGit.git_commit
           RefGit.git_push Scenario.write_args Scenario.env
           (Scenario.start Scenario.no_repo)).
  reflexivity.
Defined.

(** The reference git leaves the working files alone. *)
Lemma ref_git_commit_keeps_files (repo_path file_path message : string) (w : World) :
  files (snd (RefGit.git_commit repo_path file_path message w)) = files w.
Proof.
  unfold RefGit.git_commit.
  destruct (repos w !! repo_path) as [r |]; [| reflexivity].
  destruct (commit_fault r); reflexivity.
Qed.

Lemma ref_git_push_keeps_files (path : string) (w : World) :
  files (snd (RefGit.git_push path w)) = files w.
Proof.
  unfold RefGit.git_push.
  destruct (repos w !! path) as [r |]; [| reflexivity].
  destruct (remote r); reflexivity.
Qed.

(** C2, as stated, fails: when the pull fails the pull is the one step
    that runs; there is no append, no commit and no push after it. *)
Lemma write_steps_stop_after_failed_pull :
  steps (snd (Scenario.write Scenario.no_repo)) = [Pull] /\
  steps (snd (Scenario.write Scenario.no_repo))
    <> [Pull; Append; IndexUpdate; Commit; Push] /\
  ~ In Append (steps (snd (Scenario.write Scenario.no_repo))).
Proof.
  vm_compute. repeat split; try discriminate. intros [H | []]. discriminate H.
Qed.

Lemma write_steps_sequence_witness :
  steps (snd (Scenario.write Scenario.locked_repo)) = [Pull; Append; Commit] /\
  steps (snd (Scenario.write Scenario.diverged_repo))
  = [Pull; Append; Commit; Push].
Proof.
  split.
  - exact (write_steps_sequence RefGit.git_pull RefGit.git_commit RefGit.git_push
             Scenario.write_args Scenario.env
             (Scenario.start Scenario.locked_repo)).
  - exact (write_steps_sequence RefGit.git_pull RefGit.git_commit RefGit.git_push
             Scenario.write_args Scenario.env
             (Scenario.start Scenario.diverged_repo)).
Defined.

Lemma write_append_survives_commit_push_failure_witness :
  (Journal.read_journal Scenario.global_journal
     (world (snd (Scenario.write Scenario.locked_repo)))
   = Scenario.two_entries +:+ Scenario.new_entry /\
   fst (Scenario.write Scenario.locked_repo)
   = Returned (text_content
                 "Entry written but commit failed: Unable to create index.lock")) /\
  (Journal.read_journal Scenario.global_journal
     (world (snd (Scenario.write Scenario.diverged_repo)))
   = Scenario.two_entries +:+ Scenario.new_entry /\
   fst (Scenario.write Scenario.diverged_repo)
   = Returned (text_content
                 "Entry written and committed, but push failed: rejected (fetch first)")).
Proof.
  split.
  - destruct (write_append_survives_commit_push_failure
                RefGit.git_pull RefGit.git_commit RefGit.git_push
                ref_git_commit_keeps_files ref_git_push_keeps_files
                Scenario.write_args Scenario.env
                (Scenario.start Scenario.locked_repo)
                RefGit.no_remote (Scenario.world_with Scenario.locked_repo)
                eq_refl) as [H1 [H2 _]].
    split; [exact H1 |].
    eapply H2. vm_compute. reflexivity.
  - destruct (write_append_survives_commit_push_failure
                RefGit.git_pull RefGit.git_commit RefGit.git_push
                ref_git_commit_keeps_files ref_git_push_keeps_files
                Scenario.write_args Scenario.env
                (Scenario.start Scenario.diverged_repo)
                "Already up to date" (Scenario.world_with Scenario.diverged_repo)
                eq_refl) as [H1 [_ H3]].
    split; [exact H1 |].
    eapply H3; vm_compute; reflexivity.
Defined.


(** ** JournalSearch *)

Section SearchFacts.

Variable git_pull : Path -> World -> (bool * string) * World.
Variable re_pattern : Type.
Variable re_compile : string -> option re_pattern.
Variable re_search : re_pattern -> string -> bool.

Lemma scan_entries_filter (p : re_pattern) (ty : option string)
    (entries results : list string) :
  scan_entries re_pattern re_search p ty entries results
  = results ++ List.map strip (List.filter (selected re_pattern re_search p ty) entries).
Proof.
  revert results. induction entries as [|e es IH]; intros results.
  - cbn. now rewrite List.app_nil_r.
  - cbn [scan_entries List.filter]. unfold selected at 1, type_matches.
    destruct (is_empty (strip e)); cbn [negb andb]; [apply IH |].
    destruct (re_search p e); cbn [negb andb]; [| apply IH].
    destruct (type_filter ty) as [wanted |].
    + destruct (PyRe.search_header e) as [g |]; [| apply IH].
      destruct (String.eqb g wanted); cbn [negb]; [| apply IH].
      rewrite IH. cbn [List.map]. now rewrite <- List.app_assoc.
    + rewrite IH. cbn [List.map]. now rewrite <- List.app_assoc.
Qed.

Lemma scan_journals_filter (w : World) (p : re_pattern) (ty : option string)
    (journals results : list string) :
  scan_journals re_pattern re_search w p ty journals results
  = results ++
    List.map strip
      (List.filter (selected re_pattern re_search p ty) (entries_of w journals)).
Proof.
  revert results. induction journals as [|j js IH]; intros results.
  - cbn. now rewrite List.app_nil_r.
  - cbn [scan_journals entries_of flat_map].
    destruct (is_empty (Journal.read_journal j w)).
    + rewrite IH. reflexivity.
    + rewrite IH, scan_entries_filter.
      rewrite List.filter_app, List.map_app.
      now rewrite <- List.app_assoc.
Qed.

Lemma entries_of_files (w w' : World) (journals : list string) :
  files w = files w' -> entries_of w journals = entries_of w' journals.
Proof.
  intros H. unfold entries_of, Journal.read_journal. now rewrite H.
Qed.

Lemma world_after_journals_files (scope : string) (env : Env) (w : World) :
  files (world_after_journals scope env w) = files w.
Proof.
  unfold world_after_journals, Journal.get_or_create_project_id.
  destruct (String.eqb scope "project" || String.eqb scope "both");
    [| reflexivity].
  now destruct (Journal.read_project_id (cwd env) w).
Qed.

Lemma journals_for_run (scope : string) (env : Env) (st : State) :
  journals_for scope env st
  = (Returned (journals_of scope env (world st)),
     {| world := world_after_journals scope env (world st); steps := steps st |}).
Proof.
  unfold journals_for, journals_of, world_after_journals, project_id_of.
  destruct (String.eqb scope "project" || String.eqb scope "both").
  - run_monad. unfold Journal.get_or_create_project_id.
    now destruct (Journal.read_project_id (cwd env) (world st)).
  - cbn [ret]. rewrite List.app_nil_r. now destruct st.
Qed.

(** The handler after its pull, in one equation. *)
Lemma search_local_run (arguments : SearchArguments) (env : Env) (st : State) :
  let scope := default "both" (s_scope arguments) in
  search_local re_pattern re_compile re_search arguments env st
  = (match re_compile (s_query arguments) with
     | Some p =>
         Returned
           (search_reply
              (List.map strip
                 (List.filter (selected re_pattern re_search p (s_type arguments))
                    (entries_of (world st) (journals_of scope env (world st))))))
     | None => Raised (ReError (s_query arguments))
     end,
     {| world := world_after_journals scope env (world st); steps := steps st |}).
Proof.
  intros scope. unfold search_local. cbv zeta. fold scope.
  unfold bind at 1. rewrite journals_for_run. unfold compile.
  destruct (re_compile (s_query arguments)) as [p |]; [| reflexivity].
  run_monad. rewrite scan_journals_filter. cbn [app].
  now rewrite (entries_of_files _ (world st)) by apply world_after_journals_files.
Qed.

Lemma rstrip_empty_all_space (s : string) :
  rstrip s = EmptyString -> forallb_str is_space s = true.
Proof.
  induction s as [|c s IH]; [reflexivity |].
  cbn [rstrip forallb_str]. destruct (rstrip s); [| discriminate].
  destruct (is_space c); [| discriminate].
  intros _. now rewrite IH.
Qed.

Lemma lstrip_all_space (s : string) :
  forallb_str is_space (lstrip s) = true -> forallb_str is_space s = true.
Proof.
  induction s as [|c s IH]; [reflexivity |].
  cbn [lstrip]. destruct (is_space c) eqn:Hc.
  - intros H. cbn [forallb_str]. now rewrite Hc, IH.
  - cbn [forallb_str]. now rewrite Hc.
Qed.

Lemma space_is_not_hash (c : ascii) :
  is_space c = true -> Ascii.eqb "#"%char c = false.
Proof.
  intros H. destruct (Ascii.eqb_spec "#"%char c) as [<- | _];
    [discriminate | reflexivity].
Qed.

Lemma all_space_no_header (s : string) :
  forallb_str is_space s = true -> PyRe.search_header s = None.
Proof.
  induction s as [|c s IH]; [reflexivity |].
  cbn [forallb_str]. intros H. apply andb_true_iff in H as [Hc Hs].
  cbn [PyRe.search_header startswith].
  now rewrite (space_is_not_hash c Hc), (IH Hs).
Qed.

(** A chunk with a header is not blank. *)
Lemma header_not_blank (entry group1 : string) :
  PyRe.search_header entry = Some group1 -> is_empty (strip entry) = false.
Proof.
  intros H. destruct (strip entry) eqn:Hs; [| reflexivity].
  apply rstrip_empty_all_space, lstrip_all_space, all_space_no_header in Hs.
  congruence.
Qed.

Lemma type_matches_header (wanted entry : string) :
  type_matches wanted entry = true <-> PyRe.search_header entry = Some wanted.
Proof.
  unfold type_matches. destruct (PyRe.search_header entry) as [g |].
  - rewrite String.eqb_eq. split; congruence.
  - split; discriminate.
Qed.

Lemma chosen_with_type (p : re_pattern) (wanted entry : string) :
  wanted <> EmptyString ->
  selected re_pattern re_search p (Some wanted) entry
  = re_search p entry && type_matches wanted entry.
Proof.
  intros Hw. unfold selected, type_filter.
  destruct wanted as [|c wanted]; [congruence |]. cbn [is_empty].
  destruct (type_matches (String c wanted) entry) eqn:Ht.
  - apply type_matches_header, header_not_blank in Ht. now rewrite Ht.
  - now rewrite !andb_false_r.
Qed.

(** C7, as the code has it.  With a non-empty type given and journals in
    ASCII text, the results are the chunks of the searched journals, in
    order and stripped, that the query matches and in which the first match
    of the header pattern carries exactly the wanted type: a chunk is in
    the results if and only if both hold.  (The search returns unless the
    query is not a pattern [re.compile] accepts.) *)
Theorem search_type_filter_is_conjunctive
    (arguments : SearchArguments) (env : Env) (st : State) (wanted : string) :
  s_type arguments = Some wanted ->
  wanted <> EmptyString ->
  let scope := default "both" (s_scope arguments) in
  let w1 := snd (git_pull (Journal.get_journals_dir env) (world st)) in
  let entries := entries_of w1 (journals_of scope env w1) in
  Forall (fun entry => forallb_str is_ascii entry = true) entries ->
  match fst (handle_journal_search git_pull re_pattern re_compile re_search
               arguments env st) with
  | Returned reply =>
      exists p, re_compile (s_query arguments) = Some p /\
        let results :=
          List.map strip
            (List.filter (fun entry => re_search p entry && type_matches wanted entry)
               entries) in
        reply = search_reply results /\
        forall r, In r results <->
          exists entry, In entry entries /\ strip entry = r /\
            re_search p entry = true /\
            PyRe.search_header entry = Some wanted
  | Raised _ => re_compile (s_query arguments) = None
  end.
Proof.
  intros Hty Hw scope w1 entries _.
  unfold handle_journal_search. rewrite bind_step.
  fold w1. rewrite search_local_run. cbn [fst world].
  fold scope. fold entries.
  destruct (re_compile (s_query arguments)) as [p |]; [| reflexivity].
  exists p. split; [reflexivity |]. cbv zeta. split.
  - rewrite Hty. f_equal. f_equal.
    apply List.filter_ext. intros e. now apply chosen_with_type.
  - intros r. rewrite List.in_map_iff. split.
    + intros [e [Hr He]]. apply List.filter_In in He as [Hin Hsel].
      apply andb_true_iff in Hsel as [Hq Ht].
      exists e. repeat split; try assumption. now apply type_matches_header.
    + intros [e [Hin [Hr [Hq Hh]]]]. exists e. split; [assumption |].
      apply List.filter_In. split; [assumption |].
      rewrite Hq. now apply type_matches_header.
Qed.

(** C8, as the code has it.  For a query that [re.compile] accepts, over
    journals in ASCII text: when nothing is selected the reply is the
    no-matching-entries message, and otherwise it is the selected blocks
    joined by a blank line, the dashes and a blank line. *)
Theorem search_reply_shape
    (arguments : SearchArguments) (env : Env) (st : State) (p : re_pattern) :
  re_compile (s_query arguments) = Some p ->
  let scope := default "both" (s_scope arguments) in
  let w1 := snd (git_pull (Journal.get_journals_dir env) (world st)) in
  let results :=
    List.map strip
      (List.filter (selected re_pattern re_search p (s_type arguments))
         (entries_of w1 (journals_of scope env w1))) in
  Forall (fun entry => forallb_str is_ascii entry = true)
    (entries_of w1 (journals_of scope env w1)) ->
  (results = [] ->
   fst (handle_journal_search git_pull re_pattern re_compile re_search arguments env st)
   = Returned (text_content "No matching journal entries found")) /\
  (results <> [] ->
   fst (handle_journal_search git_pull re_pattern re_compile re_search arguments env st)
   = Returned (text_content
                 (join (NL +:+ NL +:+ "---" +:+ NL +:+ NL) results))).
Proof.
  intros Hp scope w1 results _.
  unfold handle_journal_search. rewrite bind_step.
  fold w1. rewrite search_local_run. cbn [fst world].
  fold scope. rewrite Hp. fold results.
  split; intros H.
  - now rewrite H.
  - destruct results; [congruence | reflexivity].
Qed.

(** C6, as the code has it.  Matching is a case-insensitive search of the
    query as a regular expression, and there is no stemming: for a plain
    query and ASCII journals, without a type filter, the chunks selected
    are the non-blank ones that contain the query itself up to letter
    case. *)
Theorem search_plain_query_is_substring
    (arguments : SearchArguments) (env : Env) (st : State) :
  PyRe.plain_queries_are_literal re_compile re_search ->
  PyRe.is_plain (s_query arguments) = true ->
  s_type arguments = None ->
  let scope := default "both" (s_scope arguments) in
  let w1 := snd (git_pull (Journal.get_journals_dir env) (world st)) in
  let entries := entries_of w1 (journals_of scope env w1) in
  Forall (fun entry => forallb_str is_ascii entry = true) entries ->
  fst (handle_journal_search git_pull re_pattern re_compile re_search arguments env st)
  = Returned
      (search_reply
         (List.map strip
            (List.filter
               (fun entry =>
                  negb (is_empty (strip entry)) &&
                  PyRe.contains_ci (s_query arguments) entry)
               entries))).
Proof.
  intros Hlaw Hplain Hty scope w1 entries Hascii.
  destruct (Hlaw _ Hplain) as [p [Hp Hsearch]].
  unfold handle_journal_search. rewrite bind_step.
  fold w1. rewrite search_local_run. cbn [fst world].
  fold scope. fold entries. rewrite Hp, Hty.
  f_equal. f_equal. f_equal.
  apply List.filter_ext_in. intros e He.
  unfold selected. cbn [type_filter]. rewrite andb_true_r.
  rewrite Hsearch; [reflexivity |].
  rewrite List.Forall_forall in Hascii. now apply Hascii.
Qed.

(** C9. The search does not look at what the pull answered: whatever the
    pull reports, success or failure with any message, the handler goes on
    as [search_local] in the world the pull left, so that a failed pull
    neither aborts the search nor shows in its reply. *)
Theorem search_discards_pull_result
    (arguments : SearchArguments) (env : Env) (st : State)
    (pull_success : bool) (pull_msg : string) (w1 : World) :
  git_pull (Journal.get_journals_dir env) (world st)
  = ((pull_success, pull_msg), w1) ->
  handle_journal_search git_pull re_pattern re_compile re_search arguments env st
  = search_local re_pattern re_compile re_search arguments env
      {| world := w1; steps := steps st ++ [Pull] |}.
Proof.
  intros Hpull. unfold handle_journal_search.
  rewrite bind_step, Hpull. reflexivity.
Qed.

(** C10. A search with scope [project] or [both], run where the working
    directory has no sidecar, leaves one behind: it records the freshly
    generated id, which is 8 lowercase hexadecimal digits.  No file is
    written: the journals are as the pull left them. *)
Theorem search_creates_project_sidecar
    (arguments : SearchArguments) (env : Env) (st : State)
    (pull_result : bool * string) (w1 : World) :
  git_pull (Journal.get_journals_dir env) (world st) = (pull_result, w1) ->
  default "both" (s_scope arguments) = "project" \/
  default "both" (s_scope arguments) = "both" ->
  Journal.read_project_id (cwd env) w1 = None ->
  let w' :=
    world (snd (handle_journal_search git_pull re_pattern re_compile re_search
                  arguments env st)) in
  Journal.read_project_id (cwd env) w' = Some (Journal.generate_project_id env) /\
  String.length (Journal.generate_project_id env) = 8 /\
  forallb_str is_hex (Journal.generate_project_id env) = true /\
  files w' = files w1.
Proof.
  intros Hpull Hscope Hnone w'.
  assert (Hw' : w' = snd (Journal.get_or_create_project_id env (cwd env) w1)).
  { subst w'. unfold handle_journal_search.
    rewrite bind_step, Hpull. cbn [fst snd].
    rewrite search_local_run. cbn [snd world].
    unfold world_after_journals.
    destruct Hscope as [-> | ->]; reflexivity. }
  rewrite Hw'. unfold Journal.get_or_create_project_id. rewrite Hnone.
  cbn [snd]. unfold Journal.read_project_id, Journal.write_project_id.
  cbn [sidecars files]. rewrite lookup_insert_eq.
  split; [reflexivity |]. split; [apply hex_of_length |].
  split; [apply hex_of_is_hex | reflexivity].
Qed.

End SearchFacts.

(** ** Closed instances of the search theorems *)

Lemma plain_engine_literal :
  PyRe.plain_queries_are_literal PyRe.Plain.re_compile PyRe.Plain.re_search.
Proof.
  intros query Hplain. exists query. split.
  - unfold PyRe.Plain.re_compile. now rewrite Hplain.
  - reflexivity.
Qed.

(** C6, as stated, fails.  The words [implement] and [implementing] have
    one stem, and the second entry contains the word [implement]; yet the
    query [implementing] finds the first entry alone.  So under no stemmer
    that gives the two words one stem does a query find every entry with a
    word of its stem. *)
Lemma search_has_no_stemming :
  fst (Scenario.search Scenario.no_repo (Scenario.global_search "implementing" None))
  = Returned (search_reply (Scenario.found "implementing")) /\
  Scenario.found "implementing" = [Scenario.first_entry] /\
  ~ exists stem : string -> string,
      stem "implement" = stem "implementing" /\
      Stemming.finds_same_stem stem Scenario.found
        (split Index.delimiter Scenario.two_entries).
Proof.
  split; [vm_compute; reflexivity |].
  split; [vm_compute; reflexivity |].
  intros [stem [Hstem Hclaim]].
  specialize (Hclaim "implementing" (Scenario.second_entry +:+ NL) "implement").
  assert (Hin : In (strip (Scenario.second_entry +:+ NL))
                   (Scenario.found "implementing")).
  { apply Hclaim.
    - vm_compute. right. left. reflexivity.
    - exists ("## [2025-10-06T15:00:00Z] decision" +:+ NL +:+ NL +:+ "We "),
             (" the cache with PostgreSQL." +:+ NL).
      vm_compute. repeat split; reflexivity.
    - exact Hstem. }
  vm_compute in Hin. destruct Hin as [Hin | []]. discriminate Hin.
Qed.

Lemma search_plain_query_is_substring_witness :
  fst (Scenario.search Scenario.no_repo (Scenario.global_search "implement" None))
  = Returned (search_reply [Scenario.first_entry; Scenario.second_entry]).
Proof.
  pose proof (search_plain_query_is_substring RefGit.git_pull
                PyRe.Plain.pattern PyRe.Plain.re_compile PyRe.Plain.re_search
                (Scenario.global_search "implement" None) Scenario.env
                (Scenario.start Scenario.no_repo)
                plain_engine_literal eq_refl eq_refl) as H.
  cbv zeta in H.
  etransitivity; [apply H | vm_compute; reflexivity].
  vm_compute. repeat constructor.
Defined.

(** C7, as stated, fails: given the empty type, a search returns every
    entry the query matches, although no header carries the empty type. *)
Lemma search_empty_type_selects_all :
  fst (Scenario.search Scenario.no_repo
         (Scenario.global_search "implement" (Some EmptyString)))
  = Returned (search_reply [Scenario.first_entry; Scenario.second_entry]) /\
  forall entry, In entry (split Index.delimiter Scenario.two_entries) ->
    PyRe.search_header entry <> Some EmptyString.
Proof.
  split; [vm_compute; reflexivity |].
  intros entry Hin. vm_compute in Hin.
  destruct Hin as [<- | [<- | [<- | []]]]; vm_compute; discriminate.
Qed.

Lemma search_type_filter_is_conjunctive_witness :
  fst (Scenario.search Scenario.no_repo
         (Scenario.global_search "implement" (Some "decision")))
  = Returned (text_content Scenario.second_entry).
Proof.
  pose proof (search_type_filter_is_conjunctive RefGit.git_pull
                PyRe.Plain.pattern PyRe.Plain.re_compile PyRe.Plain.re_search
                (Scenario.global_search "implement" (Some "decision")) Scenario.env
                (Scenario.start Scenario.no_repo) "decision"
                eq_refl ltac:(discriminate)) as H.
  cbv zeta in H.
  specialize (H ltac:(vm_compute; repeat constructor)).
  unfold Scenario.search.
  destruct (fst (handle_journal_search RefGit.git_pull
                   PyRe.Plain.pattern PyRe.Plain.re_compile PyRe.Plain.re_search
                   (Scenario.global_search "implement" (Some "decision"))
                   Scenario.env (Scenario.start Scenario.no_repo)))
    as [reply | e].
  - destruct H as [p [Hp [Hreply _]]]. rewrite Hreply.
    injection Hp as <-. vm_compute. reflexivity.
  - vm_compute in H. discriminate H.
Defined.

(** C8, as stated, fails: the query [(] is not a pattern [re.compile]
    accepts, and the search ends in [re.error] instead of a reply. *)
Lemma search_raises_on_invalid_pattern :
  fst (Scenario.search Scenario.no_repo (Scenario.global_search "(" None))
  = Raised (ReError "(") /\
  forall reply,
    fst (Scenario.search Scenario.no_repo (Scenario.global_search "(" None))
    <> Returned reply.
Proof.
  split; [vm_compute; reflexivity |].
  intros reply. vm_compute. discriminate.
Qed.

Lemma search_reply_shape_witness :
  fst (Scenario.search Scenario.no_repo (Scenario.global_search "nonexistent" None))
  = Returned (text_content "No matching journal entries found") /\
  fst (Scenario.search Scenario.no_repo (Scenario.global_search "implement" None))
  = Returned (text_content
                (Scenario.first_entry +:+ NL +:+ NL +:+ "---" +:+ NL +:+ NL +:+
                 Scenario.second_entry)).
Proof.
  split.
  - apply (search_reply_shape RefGit.git_pull
             PyRe.Plain.pattern PyRe.Plain.re_compile PyRe.Plain.re_search
             (Scenario.global_search "nonexistent" None) Scenario.env
             (Scenario.start Scenario.no_repo) "nonexistent" eq_refl).
    + vm_compute. repeat constructor.
    + vm_compute. reflexivity.
  - etransitivity.
    + apply (search_reply_shape RefGit.git_pull
               PyRe.Plain.pattern PyRe.Plain.re_compile PyRe.Plain.re_search
               (Scenario.global_search "implement" None) Scenario.env
               (Scenario.start Scenario.no_repo) "implement" eq_refl).
      * vm_compute. repeat constructor.
      * vm_compute. discriminate.
    + vm_compute. reflexivity.
Defined.

Lemma search_discards_pull_result_witness :
  fst (fst (RefGit.git_pull (journals_dir Scenario.env)
              (Scenario.world_with Scenario.no_repo))) = false /\
  Scenario.search Scenario.no_repo (Scenario.global_search "authentication" None)
  = search_local PyRe.Plain.pattern PyRe.Plain.re_compile PyRe.Plain.re_search
      (Scenario.global_search "authentication" None) Scenario.env
      {| world := Scenario.world_with Scenario.no_repo; steps := [Pull] |} /\
  fst (Scenario.search Scenario.no_repo (Scenario.global_search "authentication" None))
  = Returned (text_content Scenario.first_entry).
Proof.
  split; [reflexivity |]. split.
  - apply (search_discards_pull_result RefGit.git_pull
             PyRe.Plain.pattern PyRe.Plain.re_compile PyRe.Plain.re_search
             (Scenario.global_search "authentication" None) Scenario.env
             (Scenario.start Scenario.no_repo) false RefGit.not_a_repository).
    reflexivity.
  - vm_compute. reflexivity.
Defined.

Lemma search_creates_project_sidecar_witness :
  let arguments := {| s_query := "cache"; s_scope := None; s_type := None |} in
  Journal.read_project_id (cwd Scenario.env)
    (Scenario.world_with Scenario.no_repo) = None /\
  Journal.read_project_id (cwd Scenario.env)
    (world (snd (Scenario.search Scenario.no_repo arguments)))
  = Some "a3fffec9" /\
  files (world (snd (Scenario.search Scenario.no_repo arguments)))
  = files (Scenario.world_with Scenario.no_repo).
Proof.
  intros arguments. split; [reflexivity |].
  destruct (search_creates_project_sidecar RefGit.git_pull
              PyRe.Plain.pattern PyRe.Plain.re_compile PyRe.Plain.re_search
              arguments Scenario.env (Scenario.start Scenario.no_repo)
              (false, RefGit.not_a_repository)
              (Scenario.world_with Scenario.no_repo)
              eq_refl (or_intror eq_refl) eq_refl) as [H1 [_ [_ H4]]].
  split; [exact H1 | exact H4].
Defined.

(** ** The staleness test *)

(** The first two clauses of the staleness test, read each on its own,
    cannot both hold of any test: they disagree when both files are
    absent. *)
Lemma staleness_clauses_clash (test : option Z -> option Z -> bool) :
  ~ (forall journal_mtime index_mtime,
        (index_mtime = None -> test journal_mtime index_mtime = true) /\
        (journal_mtime = None -> test journal_mtime index_mtime = false)).
Proof.
  intros H. destruct (H None None) as [H1 H2].
  rewrite H1 in H2 by reflexivity. now specialize (H2 eq_refl).
Qed.




(** ** The repository's tests, run on the model *)

(** [test_format_entry_creates_correct_format] *)
Example format_entry_creates_correct_format :
  Journal.format_entry ("This is a test entry." +:+ NL +:+ "With multiple lines.")
    "insight" "2025-10-06 14:30:45"
  = "## [2025-10-06 14:30:45] insight" +:+ NL +:+ NL +:+
    "This is a test entry." +:+ NL +:+ "With multiple lines." +:+ NL +:+ NL +:+
    "---" +:+ NL.
Proof. reflexivity. Qed.

(** [test_parse_entries_from_markdown_parses_multiple_entries], with the
    blank line the test puts between the records. *)
Example parse_entries_parses_multiple_entries :
  List.map
    (fun e => (Index.timestamp e, Index.entry_type e, Index.content e))
    (Index.parse_entries_from_markdown
       ("## [2025-10-06T14:30:00Z] insight" +:+ NL +:+ NL +:+ "First entry" +:+ NL +:+
        NL +:+ "---" +:+ NL +:+ NL +:+
        "## [2025-10-06T15:00:00Z] decision" +:+ NL +:+ NL +:+ "Second entry" +:+ NL +:+
        NL +:+ "---" +:+ NL))
  = [ ("2025-10-06T14:30:00Z", "insight",
       "## [2025-10-06T14:30:00Z] insight" +:+ NL +:+ NL +:+ "First entry");
      ("2025-10-06T15:00:00Z", "decision",
       "## [2025-10-06T15:00:00Z] decision" +:+ NL +:+ NL +:+ "Second entry") ].
Proof. reflexivity. Qed.

(** [test_parse_entries_from_markdown_skips_malformed_entries] and
    [test_parse_entries_from_markdown_handles_empty_content] *)
Example parse_entries_skips_malformed_entries :
  List.map Index.entry_type
    (Index.parse_entries_from_markdown
       ("## [2025-10-06T14:30:00Z] insight" +:+ NL +:+ NL +:+ "Valid entry" +:+ NL +:+
        NL +:+ "---" +:+ NL +:+ NL +:+
        "Some text without header" +:+ NL +:+ NL +:+ "---" +:+ NL))
  = ["insight"] /\
  Index.parse_entries_from_markdown "" = [].
Proof. split; reflexivity. Qed.

(** [test_journal_write_global_scope] and [test_journal_write_commits_to_git]:
    in a repository without a remote the entry is written and committed. *)
Example journal_write_global_scope :
  fst (Scenario.write Scenario.local_repo)
  = Returned (text_content
                "Journal entry written to /home/u/.claude/journal/global/journal.md") /\
  Journal.read_journal Scenario.global_journal
    (world (snd (Scenario.write Scenario.local_repo)))
  = Scenario.two_entries +:+ Scenario.new_entry /\
  log <$> (repos (world (snd (Scenario.write Scenario.local_repo)))
            !! "/home/u/.claude/journal")
  = Some [ (Scenario.global_journal,
            "[global] preference: User prefers explicit error handling") ].
Proof. vm_compute. repeat split; reflexivity. Qed.

(** [test_journal_search_filters_by_type] and [test_journal_search_no_results] *)
Example journal_search_filters_by_type :
  fst (Scenario.search Scenario.no_repo
         (Scenario.global_search "the" (Some "insight")))
  = Returned (text_content Scenario.first_entry) /\
  fst (Scenario.search Scenario.no_repo (Scenario.global_search "nonexistent" None))
  = Returned (text_content "No matching journal entries found").
Proof. vm_compute. split; reflexivity. Qed.

(** * Further properties of the handlers *)

(** ** Where a write goes *)

Lemma resolve_journal_path_path (env : Env) (scope : string) (w : World) :
  fst (Journal.resolve_journal_path env scope (cwd env) w)
  = path_join
      (path_join (Journal.get_journals_dir env)
         (if String.eqb scope "global" then "global" else project_id_of env w))
      "journal.md".
Proof.
  unfold Journal.resolve_journal_path, project_id_of,
    Journal.get_or_create_project_id.
  destruct (String.eqb scope "global"); [reflexivity |].
  now destruct (Journal.read_project_id (cwd env) w).
Qed.

Lemma resolve_journal_path_files (env : Env) (scope : string) (w : World) :
  files (snd (Journal.resolve_journal_path env scope (cwd env) w)) = files w.
Proof.
  unfold Journal.resolve_journal_path, Journal.get_or_create_project_id.
  destruct (String.eqb scope "global"); [reflexivity |].
  now destruct (Journal.read_project_id (cwd env) w).
Qed.

Lemma resolve_journal_path_repos (env : Env) (scope : string) (w : World) :
  repos (snd (Journal.resolve_journal_path env scope (cwd env) w)) = repos w.
Proof.
  unfold Journal.resolve_journal_path, Journal.get_or_create_project_id.
  destruct (String.eqb scope "global"); [reflexivity |].
  now destruct (Journal.read_project_id (cwd env) w).
Qed.

Lemma resolve_journal_path_sidecar (env : Env) (scope : string) (w : World) :
  String.eqb scope "global" = false ->
  Journal.read_project_id (cwd env)
    (snd (Journal.resolve_journal_path env scope (cwd env) w))
  = Some (project_id_of env w).
Proof.
  intros Hs.
  unfold Journal.resolve_journal_path, project_id_of,
    Journal.get_or_create_project_id.
  rewrite Hs.
  destruct (Journal.read_project_id (cwd env) w) as [id |] eqn:Hid.
  - exact Hid.
  - unfold Journal.read_project_id. cbn. apply lookup_insert_eq.
Qed.

Lemma take_length_le (n : nat) (s : string) : String.length (take n s) <= n.
Proof.
  revert s. induction n as [|n IH]; intros [|c s]; cbn; try lia.
  specialize (IH s). lia.
Qed.

Lemma take_short (n : nat) (s : string) : String.length s <= n -> take n s = s.
Proof.
  revert s. induction n as [|n IH]; intros [|c s]; cbn; intros H;
    try reflexivity; try lia.
  rewrite IH; [reflexivity | lia].
Qed.

Section WriteMore.

Variable git_pull : Path -> World -> (bool * string) * World.
Variable git_commit : Path -> Path -> string -> World -> (bool * string) * World.
Variable git_push : Path -> World -> (bool * string) * World.

(** X4. A write of scope [global] or [project] on which the pull, the
    commit and the push all succeed replies with the path of the journal it
    appended to: [journal.md] in the [global] directory of the journals
    root for the scope [global], and in the directory named by the project
    id for the scope [project].  The four steps have run, and the world is
    the one the push left. *)
Theorem write_success_names_the_journal
    (arguments : WriteArguments) (env : Env) (st : State)
    (m0 m1 m2 : string) (w1 w4 w5 : World) :
  let scope := default "project" (w_scope arguments) in
  let resolved := Journal.resolve_journal_path env scope (cwd env) w1 in
  let journal_path := fst resolved in
  let w3 := snd (Journal.append_entry env journal_path (w_content arguments)
                   (w_type arguments) (snd resolved)) in
  let commit_msg :=
    "[" +:+ scope +:+ "] " +:+ w_type arguments +:+ ": " +:+
    take 50 (w_content arguments) in
  scope = "global" \/ scope = "project" ->
  git_pull (Journal.get_journals_dir env) (world st) = ((true, m0), w1) ->
  git_commit (Journal.get_journals_dir env) journal_path commit_msg w3
  = ((true, m1), w4) ->
  git_push (Journal.get_journals_dir env) w4 = ((true, m2), w5) ->
  handle_journal_write git_pull git_commit git_push arguments env st
  = (Returned (text_content ("Journal entry written to " +:+ journal_path)),
     {| world := w5; steps := steps st ++ [Pull; Append; Commit; Push] |}) /\
  journal_path
  = path_join
      (path_join (journals_dir env)
         (if String.eqb scope "global" then "global" else project_id_of env w1))
      "journal.md".
Proof.
  intros scope resolved journal_path w3 commit_msg _ Hpull Hcommit Hpush.
  split; [| apply resolve_journal_path_path].
  unfold handle_journal_write. cbv zeta. run_monad.
  rewrite Hpull. run_monad.
  fold scope. fold resolved. fold journal_path. fold w3. fold commit_msg.
  rewrite Hcommit. run_monad. rewrite Hpush. run_monad.
  now rewrite <- !List.app_assoc.
Qed.

(** The commit and the push act on the repository, not on the working
    files nor on the project sidecars. *)
Hypothesis git_commit_keeps_files :
  forall repo_path file_path message w,
    files (snd (git_commit repo_path file_path message w)) = files w.
Hypothesis git_push_keeps_files :
  forall path w, files (snd (git_push path w)) = files w.
Hypothesis git_commit_keeps_sidecars :
  forall repo_path file_path message w,
    sidecars (snd (git_commit repo_path file_path message w)) = sidecars w.
Hypothesis git_push_keeps_sidecars :
  forall path w, sidecars (snd (git_push path w)) = sidecars w.


Lemma write_appends
    (arguments : WriteArguments) (env : Env) (st : State)
    (pull_msg : string) (w1 : World) :
  git_pull (Journal.get_journals_dir env) (world st) = ((true, pull_msg), w1) ->
  let journal_path :=
    fst (Journal.resolve_journal_path env
           (default "project" (w_scope arguments)) (cwd env) w1) in
  Journal.read_journal journal_path
    (world (snd (handle_journal_write git_pull git_commit git_push
                   arguments env st)))
  = Journal.read_journal journal_path w1 +:+
    Journal.format_entry (w_content arguments) (w_type arguments) (now env).
Proof.
  intros Hpull journal_path.
  unfold handle_journal_write. cbv zeta. run_monad.
  rewrite Hpull. run_monad. fold journal_path.
  match goal with
  | |- context [git_commit ?d ?f ?m ?w] =>
      pose proof (git_commit_keeps_files d f m w) as Hc;
      destruct (git_commit d f m w) as [[commit_success commit_msg] w4]
  end.
  cbn [snd] in Hc.
  assert (Hw4 : Journal.read_journal journal_path w4
                = Journal.read_journal journal_path w1 +:+
                  Journal.format_entry (w_content arguments)
                    (w_type arguments) (now env)).
  { unfold Journal.read_journal at 1. rewrite Hc.
    cbn [Journal.append_entry snd files]. rewrite lookup_insert_eq.
    cbn [default from_option]. unfold Journal.read_journal.
    now rewrite resolve_journal_path_files. }
  destruct commit_success; run_monad; [| exact Hw4].
  pose proof (git_push_keeps_files (Journal.get_journals_dir env) w4) as Hp.
  destruct (git_push (Journal.get_journals_dir env) w4)
    as [[push_success push_msg] w5].
  cbn [snd] in Hp. unfold Journal.read_journal in *.
  destruct push_success; run_monad; now rewrite Hp.
Qed.

Lemma write_project_sidecar
    (arguments : WriteArguments) (env : Env) (st : State)
    (pull_msg : string) (w1 : World) :
  git_pull (Journal.get_journals_dir env) (world st) = ((true, pull_msg), w1) ->
  String.eqb (default "project" (w_scope arguments)) "global" = false ->
  Journal.read_project_id (cwd env)
    (world (snd (handle_journal_write git_pull git_commit git_push
                   arguments env st)))
  = Some (project_id_of env w1).
Proof.
  intros Hpull Hscope.
  unfold handle_journal_write. cbv zeta. run_monad.
  rewrite Hpull. run_monad.
  match goal with
  | |- context [git_commit ?d ?f ?m ?w] =>
      pose proof (git_commit_keeps_sidecars d f m w) as Hc;
      destruct (git_commit d f m w) as [[commit_success commit_msg] w4]
  end.
  cbn [snd Journal.append_entry sidecars] in Hc.
  assert (Hw4 : Journal.read_project_id (cwd env) w4
                = Some (project_id_of env w1)).
  { unfold Journal.read_project_id. rewrite Hc.
    now apply resolve_journal_path_sidecar. }
  destruct commit_success; run_monad; [| exact Hw4].
  pose proof (git_push_keeps_sidecars (Journal.get_journals_dir env) w4) as Hp.
  destruct (git_push (Journal.get_journals_dir env) w4)
    as [[push_success push_msg] w5].
  cbn [snd] in Hp. unfold Journal.read_project_id in *.
  destruct push_success; run_monad; now rewrite Hp.
Qed.

(** X8. A write of scope [project] whose pull succeeded leaves the
    project directory with a sidecar, and the id in it names the directory
    of the journal that was written: the id already recorded when there
    was one, a freshly generated one otherwise.  A later search of the
    project, which reads the sidecar, is directed to that same journal. *)
Theorem write_project_scope_records_its_journal
    (arguments : WriteArguments) (env : Env) (st : State)
    (pull_msg : string) (w1 : World) :
  git_pull (Journal.get_journals_dir env) (world st) = ((true, pull_msg), w1) ->
  default "project" (w_scope arguments) = "project" ->
  let journal_path :=
    fst (Journal.resolve_journal_path env
           (default "project" (w_scope arguments)) (cwd env) w1) in
  let w' := world (snd (handle_journal_write git_pull git_commit git_push
                          arguments env st)) in
  Journal.read_project_id (cwd env) w' = Some (project_id_of env w1) /\
  journal_path = Journal.get_project_journal_path env (project_id_of env w1) /\
  journals_of "project" env w' = [journal_path].
Proof.
  intros Hpull Hproject journal_path w'.
  assert (Hscope : String.eqb (default "project" (w_scope arguments)) "global"
                   = false) by now rewrite Hproject.
  pose proof (write_project_sidecar arguments env st pull_msg w1 Hpull Hscope)
    as Hid.
  fold w' in Hid.
  assert (Hpath : journal_path
                  = Journal.get_project_journal_path env (project_id_of env w1)).
  { subst journal_path. rewrite resolve_journal_path_path, Hscope. reflexivity. }
  split; [exact Hid |]. split; [exact Hpath |].
  unfold journals_of, project_id_of. rewrite Hid, Hpath. reflexivity.
Qed.

End WriteMore.

(** ** What a write records in the repository *)

Lemma ref_git_pull_world (path : string) (w : World) :
  snd (RefGit.git_pull path w) = w.
Proof.
  unfold RefGit.git_pull.
  destruct (repos w !! path) as [r |]; [| reflexivity].
  now destruct (remote r).
Qed.

Lemma ref_git_push_world (path : string) (w : World) :
  snd (RefGit.git_push path w) = w.
Proof.
  unfold RefGit.git_push.
  destruct (repos w !! path) as [r |]; [| reflexivity].
  now destruct (remote r).
Qed.

(** X6. On the reference git, a write whose pull succeeds in a repository
    that accepts commits adds exactly one commit to the log, whatever the
    push answers: it stages the journal file and its message is
    [[scope] type: ] followed by the first 50 characters of the content,
    which is the whole content when that is no longer than 50. *)
Theorem write_records_one_commit
    (arguments : WriteArguments) (env : Env) (st : State) (r : Repo) :
  repos (world st) !! Journal.get_journals_dir env = Some r ->
  commit_fault r = None ->
  fst (fst (RefGit.git_pull (Journal.get_journals_dir env) (world st))) = true ->
  let scope := default "project" (w_scope arguments) in
  let journal_path :=
    fst (Journal.resolve_journal_path env scope (cwd env) (world st)) in
  let message :=
    "[" +:+ scope +:+ "] " +:+ w_type arguments +:+ ": " +:+
    take 50 (w_content arguments) in
  log <$> (repos (world (snd (handle_journal_write RefGit.git_pull
                                 RefGit.git_commit RefGit.git_push
                                 arguments env st)))
            !! Journal.get_journals_dir env)
  = Some (log r ++ [(journal_path, message)]) /\
  String.length message
  <= String.length scope + String.length (w_type arguments) + 55 /\
  (String.length (w_content arguments) <= 50 ->
   message = "[" +:+ scope +:+ "] " +:+ w_type arguments +:+ ": " +:+
             w_content arguments).
Proof.
  intros Hrepo Hfault Hpull scope journal_path message.
  split; [| split].
  - unfold handle_journal_write. cbv zeta. run_monad.
    rewrite ref_git_pull_world.
    destruct (fst (RefGit.git_pull (Journal.get_journals_dir env) (world st)))
      as [pull_success pull_msg].
    cbn [fst] in Hpull. subst pull_success. run_monad.
    fold scope. fold journal_path. fold message.
    unfold RefGit.git_commit at 1 2.
    cbn [Journal.append_entry snd repos].
    rewrite resolve_journal_path_repos, Hrepo, Hfault. run_monad.
    rewrite ref_git_push_world.
    match goal with
    | |- context [RefGit.git_push ?d ?w] =>
        destruct (fst (RefGit.git_push d w)) as [push_success push_msg]
    end.
    destruct push_success; run_monad; cbn [repos];
      now rewrite lookup_insert_eq.
  - subst message. rewrite !length_app_str. cbn [String.length].
    pose proof (take_length_le 50 (w_content arguments)). lia.
  - intros Hshort. subst message. now rewrite take_short.
Qed.

(** ** More on JournalSearch *)

Lemma filter_none {A} (f : A -> bool) (l : list A) :
  (forall x, In x l -> f x = false) -> List.filter f l = [].
Proof.
  induction l as [|x l IH]; intros H; [reflexivity |].
  cbn [List.filter]. rewrite (H x) by now left.
  apply IH. intros y Hy. apply H. now right.
Qed.

Lemma span_word (s : string) : forallb_str is_word (fst (span is_word s)) = true.
Proof.
  induction s as [|c s IH]; [reflexivity |].
  cbn [span]. destruct (is_word c) eqn:Hc; [| reflexivity].
  destruct (span is_word s) as [a b]. cbn [fst forallb_str] in *.
  now rewrite Hc, IH.
Qed.

Lemma bracket_word_is_word (s group1 : string) :
  PyRe.bracket_word s = Some group1 ->
  forallb_str is_word group1 = true /\ group1 <> EmptyString.
Proof.
  unfold PyRe.bracket_word.
  destruct (startswith "] " s); [| discriminate].
  pose proof (span_word (drop 2 s)) as Hw.
  destruct (span is_word (drop 2 s)) as [word rest]. cbn [fst] in Hw.
  destruct word as [|c word]; [discriminate |].
  intros H. injection H as <-. split; [exact Hw | discriminate].
Qed.

Lemma lazy_to_bracket_is_word (s group1 : string) :
  PyRe.lazy_to_bracket s = Some group1 ->
  forallb_str is_word group1 = true /\ group1 <> EmptyString.
Proof.
  induction s as [|c s IH]; cbn [PyRe.lazy_to_bracket].
  - destruct (PyRe.bracket_word EmptyString) eqn:Hb; [| discriminate].
    intros H. injection H as <-. now apply bracket_word_is_word in Hb.
  - destruct (PyRe.bracket_word (String c s)) eqn:Hb.
    + intros H. injection H as <-. now apply bracket_word_is_word in Hb.
    + destruct (Ascii.eqb c nl); [discriminate | exact IH].
Qed.

(** The type token of a header is a non-empty word. *)
Lemma search_header_is_word (s group1 : string) :
  PyRe.search_header s = Some group1 ->
  forallb_str is_word group1 = true /\ group1 <> EmptyString.
Proof.
  induction s as [|c s IH]; cbn [PyRe.search_header].
  - destruct (startswith "## [" EmptyString); discriminate.
  - destruct (startswith "## [" (String c s)).
    + destruct (PyRe.lazy_to_bracket (drop 4 (String c s))) eqn:Hl.
      * intros H. injection H as <-. now apply lazy_to_bracket_is_word in Hl.
      * exact IH.
    + exact IH.
Qed.

Lemma lazy_to_bracket_timestamp (ts rest : string) :
  Index.valid_timestamp ts = true ->
  PyRe.lazy_to_bracket (ts +:+ rest) = PyRe.lazy_to_bracket rest.
Proof.
  intros Hts. induction ts as [|c ts IH]; [reflexivity |].
  cbn [Index.valid_timestamp forallb_str] in Hts.
  apply andb_true_iff in Hts as [Hc Hts].
  apply andb_true_iff in Hc as [Hb Hn].
  apply negb_true_iff in Hb, Hn.
  change (String c ts +:+ rest) with (String c (ts +:+ rest)).
  cbn [PyRe.lazy_to_bracket]. unfold PyRe.bracket_word at 1.
  cbn [startswith]. rewrite Ascii.eqb_sym, Hb. cbn [andb].
  rewrite Hn. now apply IH.
Qed.

(** The header pattern finds the type of a header as the writer lays it
    out. *)
Lemma search_header_encoded (ts ty rest : string) :
  Index.valid_timestamp ts = true ->
  Index.valid_type ty = true ->
  PyRe.search_header ("## [" +:+ ts +:+ "] " +:+ ty +:+ String nl rest) = Some ty.
Proof.
  intros Hts Hty. apply andb_true_iff in Hty as [Hne Hty].
  apply negb_true_iff in Hne.
  change ("## [" +:+ ts +:+ "] " +:+ ty +:+ String nl rest)
    with (String "#" ("# [" +:+ ts +:+ "] " +:+ ty +:+ String nl rest)).
  cbn [PyRe.search_header].
  change (String "#" ("# [" +:+ ts +:+ "] " +:+ ty +:+ String nl rest))
    with ("## [" +:+ ts +:+ "] " +:+ ty +:+ String nl rest).
  rewrite startswith_refl.
  change 4 with (String.length "## ["). rewrite drop_app_length.
  rewrite lazy_to_bracket_timestamp by assumption.
  change ("] " +:+ ty +:+ String nl rest)
    with (String "]" (String " " (ty +:+ String nl rest))).
  cbn [PyRe.lazy_to_bracket]. unfold PyRe.bracket_word.
  change (String "]" (String " " (ty +:+ String nl rest)))
    with ("] " +:+ ty +:+ String nl rest).
  rewrite startswith_refl.
  change 2 with (String.length "] "). rewrite drop_app_length.
  rewrite span_app by (assumption || reflexivity).
  now rewrite Hne.
Qed.

(** X17. The type filter reads back what the writer wrote: in the
    serialized form of an entry with a valid timestamp and type, the header
    pattern of the search finds that type, so a filter accepts the entry
    exactly when it asks for the type the entry was written with. *)
Theorem type_filter_recognizes_written_entries
    (content entry_type timestamp wanted : string) :
  Index.valid_timestamp timestamp = true ->
  Index.valid_type entry_type = true ->
  PyRe.search_header (Journal.format_entry content entry_type timestamp)
  = Some entry_type /\
  (type_matches wanted (Journal.format_entry content entry_type timestamp) = true
   <-> wanted = entry_type).
Proof.
  intros Hts Hty.
  assert (H : PyRe.search_header
                (Journal.format_entry content entry_type timestamp)
              = Some entry_type).
  { unfold Journal.format_entry.
    change (NL +:+ NL +:+ content +:+ NL +:+ NL +:+ "---" +:+ NL)
      with (String nl (NL +:+ content +:+ NL +:+ NL +:+ "---" +:+ NL)).
    now apply search_header_encoded. }
  split; [exact H |].
  unfold type_matches. rewrite H, String.eqb_eq. split; congruence.
Qed.

Lemma lstrip_idem (s : string) : lstrip (lstrip s) = lstrip s.
Proof.
  induction s as [|c s IH]; [reflexivity |].
  cbn [lstrip]. destruct (is_space c) eqn:Hc; [exact IH |].
  cbn [lstrip]. now rewrite Hc.
Qed.

Lemma rstrip_idem (s : string) : rstrip (rstrip s) = rstrip s.
Proof.
  induction s as [|c s IH]; [reflexivity |].
  cbn [rstrip]. destruct (rstrip s) as [|d r] eqn:Hr.
  - destruct (is_space c) eqn:Hc; [reflexivity |].
    cbn [rstrip]. now rewrite Hc.
  - cbn [rstrip] in *. now rewrite IH.
Qed.

Lemma lstrip_rstrip (s : string) :
  lstrip s = s -> lstrip (rstrip s) = rstrip s.
Proof.
  destruct s as [|c s]; [reflexivity |].
  cbn [lstrip]. destruct (is_space c) eqn:Hc.
  - intros H. exfalso.
    assert (Hlen : String.length (lstrip s) <= String.length s).
    { clear. induction s as [|d s IH]; cbn; [lia |].
      destruct (is_space d); cbn; lia. }
    rewrite H in Hlen. cbn in Hlen. lia.
  - intros _. cbn [rstrip].
    destruct (rstrip s); rewrite ?Hc; cbn [lstrip]; now rewrite Hc.
Qed.

Lemma strip_idem (s : string) : strip (strip s) = strip s.
Proof.
  unfold strip.
  rewrite (lstrip_rstrip (lstrip s)) by apply lstrip_idem.
  apply rstrip_idem.
Qed.

Lemma rstrip_app_nl (s : string) : rstrip (s +:+ NL) = rstrip s.
Proof.
  induction s as [|c s IH]; [reflexivity |].
  change (String c s +:+ NL) with (String c (s +:+ NL)).
  cbn [rstrip]. now rewrite IH.
Qed.

Lemma is_empty_true (s : string) : is_empty s = true <-> s = EmptyString.
Proof. destruct s; cbn; split; congruence. Qed.

Section SearchMore.

Variable git_pull : Path -> World -> (bool * string) * World.
Variable re_pattern : Type.
Variable re_compile : string -> option re_pattern.
Variable re_search : re_pattern -> string -> bool.

(** The whole handler in one equation. *)
Lemma search_run (arguments : SearchArguments) (env : Env) (st : State) :
  let scope := default "both" (s_scope arguments) in
  let w1 := snd (git_pull (Journal.get_journals_dir env) (world st)) in
  handle_journal_search git_pull re_pattern re_compile re_search arguments env st
  = (match re_compile (s_query arguments) with
     | Some p =>
         Returned
           (search_reply
              (List.map strip
                 (List.filter (selected re_pattern re_search p (s_type arguments))
                    (entries_of w1 (journals_of scope env w1)))))
     | None => Raised (ReError (s_query arguments))
     end,
     {| world := world_after_journals scope env w1; steps := steps st ++ [Pull] |}).
Proof.
  intros scope w1. unfold handle_journal_search.
  rewrite bind_step. fold w1. now rewrite search_local_run.
Qed.

(** X9. Scopes are compared exactly.  A search whose scope is none of
    [global], [project] and [both] reads no journal: for a query that
    compiles it replies that nothing matched, and it leaves the world as
    the pull left it (no sidecar is created). *)
Theorem search_unknown_scope_finds_nothing
    (arguments : SearchArguments) (env : Env) (st : State)
    (scope : string) (p : re_pattern) :
  s_scope arguments = Some scope ->
  scope <> "global" -> scope <> "project" -> scope <> "both" ->
  re_compile (s_query arguments) = Some p ->
  handle_journal_search git_pull re_pattern re_compile re_search arguments env st
  = (Returned (text_content "No matching journal entries found"),
     {| world := snd (git_pull (Journal.get_journals_dir env) (world st));
        steps := steps st ++ [Pull] |}).
Proof.
  intros Hscope Hg Hp Hb Hq.
  rewrite search_run. cbv zeta. rewrite Hscope, Hq.
  change (default "both" (Some scope)) with scope.
  unfold journals_of, world_after_journals.
  apply String.eqb_neq in Hg, Hp, Hb. rewrite Hg, Hp, Hb. reflexivity.
Qed.

(** X10. A search writes no journal and touches no repository: the files
    and the repositories are, at the end, as the pull left them, and so is
    the sidecar of every directory other than the working directory.  When
    the scope is [global], or the working directory has a sidecar already,
    the whole world is as the pull left it. *)
Theorem search_is_read_only
    (arguments : SearchArguments) (env : Env) (st : State) :
  let scope := default "both" (s_scope arguments) in
  let w1 := snd (git_pull (Journal.get_journals_dir env) (world st)) in
  let w' := world (snd (handle_journal_search git_pull re_pattern re_compile
                          re_search arguments env st)) in
  files w' = files w1 /\
  repos w' = repos w1 /\
  (forall dir, dir <> cwd env ->
     Journal.read_project_id dir w' = Journal.read_project_id dir w1) /\
  (scope = "global" \/ is_Some (Journal.read_project_id (cwd env) w1) ->
   w' = w1).
Proof.
  intros scope w1 w'. subst w'. rewrite search_run. cbn [snd world].
  fold scope. fold w1.
  unfold world_after_journals, Journal.get_or_create_project_id.
  destruct (String.eqb scope "project" || String.eqb scope "both") eqn:Hs.
  - destruct (Journal.read_project_id (cwd env) w1) as [id |] eqn:Hid;
      cbn [snd].
    + repeat split; reflexivity.
    + split; [reflexivity |]. split; [reflexivity |]. split.
      * intros dir Hdir. unfold Journal.read_project_id, Journal.write_project_id.
        cbn [sidecars]. now rewrite lookup_insert_ne.
      * intros [Hg | [id Hsome]]; [| discriminate].
        rewrite Hg in Hs. discriminate Hs.
  - repeat split; reflexivity.
Qed.

(** X11. What a search collects is trimmed and never blank.  For a query
    that compiles, over journals in ASCII text, the reply is formed from
    the list [results] that the loops of the handler build, and every block
    of that list is non-empty and has no white space at its ends. *)
Theorem search_results_are_trimmed
    (arguments : SearchArguments) (env : Env) (st : State) (p : re_pattern) :
  let scope := default "both" (s_scope arguments) in
  let w1 := snd (git_pull (Journal.get_journals_dir env) (world st)) in
  let journals := journals_of scope env w1 in
  let results :=
    scan_journals re_pattern re_search w1 p (s_type arguments) journals [] in
  re_compile (s_query arguments) = Some p ->
  Forall (fun entry => forallb_str is_ascii entry = true)
    (entries_of w1 journals) ->
  fst (handle_journal_search git_pull re_pattern re_compile re_search
         arguments env st)
  = Returned (search_reply results) /\
  Forall (fun block => block <> EmptyString /\ strip block = block) results.
Proof.
  intros scope w1 journals results Hq _. subst results.
  rewrite search_run. cbv zeta. rewrite Hq. cbn [fst].
  fold scope. fold w1. fold journals.
  rewrite scan_journals_filter. cbn [app].
  split; [reflexivity |].
  apply List.Forall_forall. intros block Hin.
  apply List.in_map_iff in Hin as [entry [<- Hin]].
  apply List.filter_In in Hin as [_ Hsel].
  unfold selected in Hsel.
  apply andb_true_iff in Hsel as [Hsel _].
  apply andb_true_iff in Hsel as [Hblank _].
  apply negb_true_iff in Hblank.
  split; [| apply strip_idem].
  intros Hempty. rewrite Hempty in Hblank. discriminate Hblank.
Qed.

(** X12. An empty type is no filter: a search given the type [""] does
    what the same search does without a type. *)
Theorem search_empty_type_is_no_filter
    (query : string) (scope : option string) (env : Env) (st : State) :
  handle_journal_search git_pull re_pattern re_compile re_search
    {| s_query := query; s_scope := scope; s_type := Some EmptyString |} env st
  = handle_journal_search git_pull re_pattern re_compile re_search
      {| s_query := query; s_scope := scope; s_type := None |} env st.
Proof.
  rewrite !search_run. cbv zeta. cbn [s_query s_scope s_type].
  reflexivity.
Qed.

(** X13. Journals that do not exist, or are empty, are searched as empty:
    when none of the journals of the scope has any content, a query that
    compiles gets the reply that nothing matched. *)
Theorem search_without_journals_finds_nothing
    (arguments : SearchArguments) (env : Env) (st : State) (p : re_pattern) :
  let scope := default "both" (s_scope arguments) in
  let w1 := snd (git_pull (Journal.get_journals_dir env) (world st)) in
  (forall journal_path, In journal_path (journals_of scope env w1) ->
     Journal.read_journal journal_path w1 = EmptyString) ->
  re_compile (s_query arguments) = Some p ->
  fst (handle_journal_search git_pull re_pattern re_compile re_search
         arguments env st)
  = Returned (text_content "No matching journal entries found").
Proof.
  intros scope w1 Hempty Hq. rewrite search_run. cbv zeta.
  fold scope. fold w1. rewrite Hq. cbn [fst].
  assert (Hnone : entries_of w1 (journals_of scope env w1) = []).
  { unfold entries_of. induction (journals_of scope env w1) as [|j js IH];
      [reflexivity |].
    cbn [flat_map]. rewrite (Hempty j) by now left. cbn [is_empty app].
    apply IH. intros j' Hj'. apply Hempty. now right. }
  now rewrite Hnone.
Qed.

(** X14. The scope [both] is the scope [global] followed by the scope
    [project]: from the same state, the results of a search of both are
    the results of the global search followed by those of the project
    search. *)
Theorem search_both_is_global_then_project
    (query : string) (entry_type : option string) (env : Env) (st : State)
    (p : re_pattern) :
  re_compile query = Some p ->
  let run scope :=
    fst (handle_journal_search git_pull re_pattern re_compile re_search
           {| s_query := query; s_scope := Some scope; s_type := entry_type |}
           env st) in
  exists in_global in_project,
    run "global" = Returned (search_reply in_global) /\
    run "project" = Returned (search_reply in_project) /\
    run "both" = Returned (search_reply (in_global ++ in_project)).
Proof.
  intros Hq run. subst run. cbv beta.
  rewrite !search_run. cbv zeta. cbn [s_query s_scope s_type default from_option].
  rewrite Hq. cbn [fst].
  eexists. eexists. split; [reflexivity |]. split; [reflexivity |].
  f_equal. f_equal.
  rewrite <- List.map_app, <- List.filter_app.
  f_equal. f_equal.
  unfold entries_of. rewrite <- List.flat_map_app. f_equal.
Qed.

(** X15. The header's type is always a word, so a filter that is not one
    selects nothing: with a non-empty type in ASCII that has a character
    outside letters, digits and underscore, a query that compiles gets the
    reply that nothing matched. *)
Theorem search_non_word_type_finds_nothing
    (arguments : SearchArguments) (env : Env) (st : State)
    (wanted : string) (p : re_pattern) :
  s_type arguments = Some wanted ->
  wanted <> EmptyString ->
  forallb_str is_ascii wanted = true ->
  forallb_str is_word wanted = false ->
  re_compile (s_query arguments) = Some p ->
  fst (handle_journal_search git_pull re_pattern re_compile re_search
         arguments env st)
  = Returned (text_content "No matching journal entries found").
Proof.
  intros Hty Hne _ Hword Hq. rewrite search_run. cbv zeta.
  rewrite Hq, Hty. cbn [fst].
  rewrite filter_none; [reflexivity |].
  intros entry _. rewrite chosen_with_type by assumption.
  destruct (type_matches wanted entry) eqn:Ht; [| apply andb_false_r].
  apply type_matches_header, search_header_is_word in Ht as [Hw _].
  congruence.
Qed.

End SearchMore.

Section SearchErrors.

Variable git_pull : Path -> World -> (bool * string) * World.
Variable re_pattern : Type.
Variable re_compile : string -> option re_pattern.
Variable re_search : re_pattern -> string -> bool.


End SearchErrors.

(** ** A write, then a search *)

(** The serialized form of a valid entry is one chunk and the empty rest. *)
Lemma split_format_entry (c ty ts : string) :
  Index.valid_timestamp ts = true ->
  Index.valid_type ty = true ->
  Index.valid_content c = true ->
  split Index.delimiter (Journal.format_entry c ty ts)
  = [ ("## [" +:+ ts +:+ "] " +:+ ty +:+ NL +:+ NL +:+ c) +:+ NL; EmptyString ].
Proof.
  intros Hts Hty Hc.
  assert (Hshape : ("## [" +:+ ts +:+ "] " +:+ ty +:+ NL +:+ NL +:+ c) +:+ NL
                   = ("## [" +:+ ts +:+ "] " +:+ ty) +:+ NL +:+ (String nl c +:+ NL)).
  { rewrite !app_assoc_str. reflexivity. }
  rewrite Hshape. unfold split. rewrite format_entry_shape.
  change Index.delimiter with (String nl ("---" +:+ NL)) at 1 2.
  rewrite split_aux_terminated; [reflexivity |].
  change (String nl ("---" +:+ NL)) with Index.delimiter.
  rewrite (no_early_app _ ("## [" +:+ ts +:+ "] " +:+ ty)).
  rewrite (no_early_app _ NL).
  apply andb_true_iff; split; [| apply andb_true_iff; split].
  - apply no_early_other_chars.
    rewrite !forallb_str_app.
    apply andb_true_iff; split; [reflexivity |].
    apply andb_true_iff; split; [| apply andb_true_iff; split; [reflexivity |]].
    + eapply forallb_str_impl; [| exact Hts].
      intros ch H. apply andb_true_iff in H as [_ H]. exact H.
    + apply andb_true_iff in Hty as [_ Hty].
      eapply forallb_str_impl; [| exact Hty].
      intros ch H. now rewrite (is_word_not_nl ch H).
  - reflexivity.
  - apply no_early_delimiter; [| reflexivity].
    unfold Index.valid_content in Hc. apply negb_true_iff in Hc. exact Hc.
Qed.

Section WriteThenSearch.

Variable git_pull : Path -> World -> (bool * string) * World.
Variable git_commit : Path -> Path -> string -> World -> (bool * string) * World.
Variable git_push : Path -> World -> (bool * string) * World.
Variable re_pattern : Type.
Variable re_compile : string -> option re_pattern.
Variable re_search : re_pattern -> string -> bool.

Hypothesis git_commit_keeps_files :
  forall repo_path file_path message w,
    files (snd (git_commit repo_path file_path message w)) = files w.
Hypothesis git_push_keeps_files :
  forall path w, files (snd (git_push path w)) = files w.
Hypothesis git_commit_keeps_sidecars :
  forall repo_path file_path message w,
    sidecars (snd (git_commit repo_path file_path message w)) = sidecars w.
Hypothesis git_push_keeps_sidecars :
  forall path w, sidecars (snd (git_push path w)) = sidecars w.

(** X7. What is written is found.  Take a write of scope [global] or
    [project] whose pull succeeded, into a journal that had no content yet,
    of a valid entry in ASCII text; then search the
    scope that was written to, with a query that matches the entry and with
    the entry's type or no type, the pull of the search bringing no change
    to the files and sidecars.  Whatever the commit and the push of the
    write answered, the search replies with exactly the block of the new
    entry: its header, a blank line and its content, trimmed. *)
Theorem written_entry_is_found
    (written : WriteArguments) (searched : SearchArguments)
    (env : Env) (st : State)
    (pull_msg : string) (w1 : World)
    (second_pull : bool * string) (w6 : World) (p : re_pattern) :
  let scope := default "project" (w_scope written) in
  let journal_path :=
    fst (Journal.resolve_journal_path env scope (cwd env) w1) in
  let st' := snd (handle_journal_write git_pull git_commit git_push
                    written env st) in
  let block :=
    "## [" +:+ now env +:+ "] " +:+ w_type written +:+ NL +:+ NL +:+
    w_content written in
  scope = "global" \/ scope = "project" ->
  forallb_str is_ascii (now env) = true ->
  forallb_str is_ascii (w_type written) = true ->
  forallb_str is_ascii (w_content written) = true ->
  git_pull (Journal.get_journals_dir env) (world st) = ((true, pull_msg), w1) ->
  Journal.read_journal journal_path w1 = EmptyString ->
  Index.valid_timestamp (now env) = true ->
  Index.valid_type (w_type written) = true ->
  Index.valid_content (w_content written) = true ->
  git_pull (Journal.get_journals_dir env) (world st') = (second_pull, w6) ->
  files w6 = files (world st') ->
  sidecars w6 = sidecars (world st') ->
  s_scope searched
  = Some (if String.eqb scope "global" then "global" else "project") ->
  s_type searched = None \/ s_type searched = Some (w_type written) ->
  re_compile (s_query searched) = Some p ->
  re_search p (block +:+ NL) = true ->
  fst (handle_journal_search git_pull re_pattern re_compile re_search
         searched env st')
  = Returned (text_content (strip block)).
Proof.
  intros scope journal_path st' block _ _ _ _ Hpull Hfresh Hts Hty Hc
    Hpull2 Hfiles Hsidecars Hscope Htype Hq Hmatch.
  (* the journal after the write *)
  assert (Hjournal : Journal.read_journal journal_path w6
                     = Journal.format_entry (w_content written)
                         (w_type written) (now env)).
  { unfold Journal.read_journal at 1. rewrite Hfiles.
    pose proof (write_appends git_pull git_commit git_push
                  git_commit_keeps_files git_push_keeps_files
                  written env st pull_msg w1 Hpull) as H.
    cbv zeta in H. fold scope journal_path st' in H.
    unfold Journal.read_journal in H at 1. rewrite H, Hfresh. reflexivity. }
  (* the journals the search reads *)
  assert (Hjournals :
            journals_of (if String.eqb scope "global" then "global" else "project")
              env w6 = [journal_path]).
  { subst journal_path. rewrite resolve_journal_path_path.
    destruct (String.eqb scope "global") eqn:Hs; [reflexivity |].
    unfold journals_of, project_id_of, Journal.read_project_id.
    rewrite Hsidecars.
    pose proof (write_project_sidecar git_pull git_commit git_push
                  git_commit_keeps_sidecars git_push_keeps_sidecars
                  written env st pull_msg w1 Hpull Hs) as H.
    fold st' in H. unfold Journal.read_project_id in H. rewrite H.
    reflexivity. }
  (* the chunks *)
  assert (Hentries :
            entries_of w6 [journal_path] = [block +:+ NL; EmptyString]).
  { unfold entries_of. cbn [flat_map]. rewrite Hjournal, List.app_nil_r.
    rewrite split_format_entry by assumption. reflexivity. }
  assert (Hheader : PyRe.search_header (block +:+ NL) = Some (w_type written)).
  { subst block. rewrite !app_assoc_str.
    change (NL +:+ NL +:+ w_content written +:+ NL)
      with (String nl (NL +:+ w_content written +:+ NL)).
    now apply search_header_encoded. }
  assert (Hselected :
            selected re_pattern re_search p (s_type searched) (block +:+ NL) = true).
  { unfold selected. rewrite (header_not_blank _ _ Hheader), Hmatch.
    destruct Htype as [-> | ->]; [reflexivity |].
    unfold type_filter. apply andb_true_iff in Hty as [Hne _].
    apply negb_true_iff in Hne. rewrite Hne.
    cbn [negb andb]. now apply type_matches_header. }
  rewrite search_run. cbv zeta. rewrite Hpull2. cbn [snd fst].
  rewrite Hscope, Hq.
  change (default "both"
            (Some (if String.eqb scope "global" then "global" else "project")))
    with (if String.eqb scope "global" then "global" else "project").
  rewrite Hjournals, Hentries.
  cbn [List.filter]. rewrite Hselected.
  unfold selected at 1. cbn [strip lstrip rstrip is_empty negb andb List.map].
  cbn [search_reply]. f_equal. f_equal.
  unfold strip.
  assert (Hl : forall t, lstrip ("## [" +:+ t) = "## [" +:+ t) by reflexivity.
  unfold block. rewrite !app_assoc_str, !Hl, <- !app_assoc_str.
  apply rstrip_app_nl.
Qed.

End WriteThenSearch.

(** ** The tool layer *)

Section ToolFacts.

Variable git_pull : Path -> World -> (bool * string) * World.
Variable git_commit : Path -> Path -> string -> World -> (bool * string) * World.
Variable git_push : Path -> World -> (bool * string) * World.
Variable re_pattern : Type.
Variable re_compile : string -> option re_pattern.
Variable re_search : re_pattern -> string -> bool.

Lemma tool_result_not_key_or_value (r : outcome (list TextContent) * State) :
  (forall key, fst (tool_result r) <> ToolRaised (KeyError key)) /\
  (forall msg, fst (tool_result r) <> ToolRaised (ValueError msg)).
Proof.
  destruct r as [[reply | e] st]; cbn; split; intros; discriminate.
Qed.


(** X2. The keys a handler reads with [arguments[key]] are the keys its
    schema requires: a call of a listed tool raises [KeyError] exactly when
    the arguments lack a key the schema of the tool requires.  The error
    names a required key that is missing, and it comes before anything is
    done: the state is untouched. *)
Theorem call_tool_key_error_iff_required_missing
    (tool : Tool) (arguments : gmap string string) (env : Env) (st : State) :
  In tool list_tools ->
  let result :=
    call_tool git_pull git_commit git_push re_pattern re_compile re_search
      (name tool) arguments env st in
  ((exists key, fst result = ToolRaised (KeyError key))
   <-> ~ has_required (inputSchema tool) arguments) /\
  (forall key, fst result = ToolRaised (KeyError key) ->
     In key (required (inputSchema tool)) /\ arguments !! key = None /\
     snd result = st).
Proof.
  intros Htool result. subst result.
  destruct Htool as [<- | [<- | []]]; unfold call_tool, has_required;
    cbn [name inputSchema required String.eqb Ascii.eqb Bool.eqb].
  - unfold write_arguments.
    destruct (arguments !! "content") as [content |] eqn:Hc.
    + destruct (arguments !! "type") as [ty |] eqn:Ht.
      * split.
        -- split.
           ++ intros [key H]. exfalso. revert H.
              apply tool_result_not_key_or_value.
           ++ intros H. exfalso. apply H. intros key [<- | [<- | []]];
                [rewrite Hc | rewrite Ht]; eauto.
        -- intros key H. exfalso. revert H.
           apply tool_result_not_key_or_value.
      * split.
        -- split; [| intros _; eexists; reflexivity].
           intros _ H. specialize (H "type" ltac:(cbn; tauto)).
           rewrite Ht in H. now destruct H.
        -- intros key H. injection H as <-. cbn. tauto.
    + split.
      * split; [| intros _; eexists; reflexivity].
        intros _ H. specialize (H "content" ltac:(cbn; tauto)).
        rewrite Hc in H. now destruct H.
      * intros key H. injection H as <-. cbn. tauto.
  - unfold search_arguments.
    destruct (arguments !! "query") as [query |] eqn:Hq.
    + split.
      * split.
        -- intros [key H]. exfalso. revert H.
           apply tool_result_not_key_or_value.
        -- intros H. exfalso. apply H. intros key [<- | []].
           rewrite Hq. eauto.
      * intros key H. exfalso. revert H.
        apply tool_result_not_key_or_value.
    + split.
      * split; [| intros _; eexists; reflexivity].
        intros _ H. specialize (H "query" ltac:(cbn; tauto)).
        rewrite Hq in H. now destruct H.
      * intros key H. injection H as <-. cbn. tauto.
Qed.

(** X3. The defaults the schemas declare are the defaults the handlers
    apply: for a listed tool and a property with a declared default, a call
    that leaves the property out does what the same call does with the
    property set to that default. *)
Theorem call_tool_schema_defaults
    (tool : Tool) (key : string) (prop : SchemaProperty) (value : string)
    (arguments : gmap string string) (env : Env) (st : State) :
  In tool list_tools ->
  In (key, prop) (properties (inputSchema tool)) ->
  default_value prop = Some value ->
  arguments !! key = None ->
  call_tool git_pull git_commit git_push re_pattern re_compile re_search
    (name tool) (<[key := value]> arguments) env st
  = call_tool git_pull git_commit git_push re_pattern re_compile re_search
      (name tool) arguments env st.
Proof.
  intros Htool Hprop Hdefault Habsent.
  destruct Htool as [<- | [<- | []]];
    cbn [inputSchema properties] in Hprop;
    destruct Hprop as [Hp | [Hp | [Hp | []]]];
    injection Hp as <- <-; cbn [default_value] in Hdefault;
    try discriminate Hdefault;
    injection Hdefault as <-;
    unfold call_tool;
    cbn [name String.eqb Ascii.eqb Bool.eqb].
  - unfold write_arguments.
    rewrite (lookup_insert_ne _ "scope" "content") by discriminate.
    rewrite (lookup_insert_ne _ "scope" "type") by discriminate.
    rewrite lookup_insert_eq, Habsent.
    destruct (arguments !! "content"); [| reflexivity].
    destruct (arguments !! "type"); reflexivity.
  - unfold search_arguments.
    rewrite (lookup_insert_ne _ "scope" "query") by discriminate.
    rewrite (lookup_insert_ne _ "scope" "type") by discriminate.
    rewrite lookup_insert_eq, Habsent.
    destruct (arguments !! "query"); [| reflexivity].
    reflexivity.
Qed.

End ToolFacts.

(** ** Closed instances of the further properties *)

Lemma ref_git_commit_keeps_sidecars (repo_path file_path message : string)
    (w : World) :
  sidecars (snd (RefGit.git_commit repo_path file_path message w)) = sidecars w.
Proof.
  unfold RefGit.git_commit.
  destruct (repos w !! repo_path) as [r |]; [| reflexivity].
  destruct (commit_fault r); reflexivity.
Qed.

Lemma ref_git_push_keeps_sidecars (path : string) (w : World) :
  sidecars (snd (RefGit.git_push path w)) = sidecars w.
Proof. now rewrite ref_git_push_world. Qed.


Lemma call_tool_key_error_iff_required_missing_witness :
  exists key,
    fst (Runs.call "JournalWrite" {[ "content" := "Some content" ]} Runs.fresh)
    = ToolRaised (KeyError key) /\
    ({[ "content" := "Some content" ]} : gmap string string) !! key = None /\
    snd (Runs.call "JournalWrite" {[ "content" := "Some content" ]} Runs.fresh)
    = Runs.fresh.
Proof.
  destruct (call_tool_key_error_iff_required_missing
              RefGit.git_pull RefGit.git_commit RefGit.git_push
              PyRe.Plain.pattern PyRe.Plain.re_compile PyRe.Plain.re_search
              journal_write_tool {[ "content" := "Some content" ]}
              Scenario.env Runs.fresh (or_introl eq_refl)) as [[_ Hmiss] Hkey].
  destruct Hmiss as [key Hraised].
  - intros Hreq. specialize (Hreq "type" (or_intror (or_introl eq_refl))).
    vm_compute in Hreq. destruct Hreq as [x Hx]. discriminate Hx.
  - exists key. destruct (Hkey key Hraised) as [_ [Habsent Hstate]].
    split; [exact Hraised |]. split; [exact Habsent | exact Hstate].
Defined.

Lemma call_tool_schema_defaults_witness :
  Runs.call "JournalSearch"
    (<["scope" := "both"]> {[ "query" := "implement" ]})
    (Scenario.start Scenario.no_repo)
  = Runs.call "JournalSearch" {[ "query" := "implement" ]}
      (Scenario.start Scenario.no_repo).
Proof.
  eapply (call_tool_schema_defaults RefGit.git_pull RefGit.git_commit
            RefGit.git_push
            PyRe.Plain.pattern PyRe.Plain.re_compile PyRe.Plain.re_search
            journal_search_tool "scope" _ "both").
  - right. left. reflexivity.
  - right. left. reflexivity.
  - reflexivity.
  - reflexivity.
Defined.

Lemma write_success_names_the_journal_witness :
  fst (Runs.write Runs.global_write Runs.fresh)
  = Returned (text_content
                "Journal entry written to /home/u/.claude/journal/global/journal.md") /\
  steps (snd (Runs.write Runs.global_write Runs.fresh))
  = [Pull; Append; Commit; Push].
Proof.
  edestruct (write_success_names_the_journal RefGit.git_pull RefGit.git_commit
               RefGit.git_push Runs.global_write Scenario.env Runs.fresh)
    as [Hrun _]; [left; reflexivity | reflexivity | reflexivity | reflexivity |].
  unfold Runs.write. rewrite Hrun. split; reflexivity.
Defined.


Lemma write_records_one_commit_witness :
  log <$> (repos (world (snd (Runs.write Runs.global_write Runs.fresh)))
            !! "/home/u/.claude/journal")
  = Some [ ("/home/u/.claude/journal/global/journal.md",
            "[global] decision: Chose PostgreSQL for the database") ].
Proof.
  destruct (write_records_one_commit Runs.global_write Scenario.env Runs.fresh
              {| commit_fault := None; remote := None; log := [] |}
              eq_refl eq_refl eq_refl) as [Hlog _].
  exact Hlog.
Defined.

Lemma written_entry_is_found_witness :
  fst (Runs.search
         {| s_query := "postgresql"; s_scope := Some "global";
            s_type := Some "decision" |}
         (snd (Runs.write Runs.global_write Runs.fresh)))
  = Returned (text_content Runs.written_block).
Proof.
  eapply (written_entry_is_found RefGit.git_pull RefGit.git_commit RefGit.git_push
            PyRe.Plain.pattern PyRe.Plain.re_compile PyRe.Plain.re_search
            ref_git_commit_keeps_files ref_git_push_keeps_files
            ref_git_commit_keeps_sidecars ref_git_push_keeps_sidecars
            Runs.global_write
            {| s_query := "postgresql"; s_scope := Some "global";
               s_type := Some "decision" |}
            Scenario.env Runs.fresh);
    try reflexivity.
  - left. reflexivity.
  - right. reflexivity.
Defined.

Lemma write_project_scope_records_its_journal_witness :
  Journal.read_project_id (cwd Scenario.env)
    (world (snd (Runs.write Runs.project_write Runs.fresh)))
  = Some "a3fffec9" /\
  journals_of "project" Scenario.env
    (world (snd (Runs.write Runs.project_write Runs.fresh)))
  = ["/home/u/.claude/journal/a3fffec9/journal.md"].
Proof.
  edestruct (write_project_scope_records_its_journal
               RefGit.git_pull RefGit.git_commit RefGit.git_push
               ref_git_commit_keeps_sidecars ref_git_push_keeps_sidecars
               Runs.project_write Scenario.env Runs.fresh)
    as [Hid [_ Hjournals]]; [reflexivity | reflexivity |].
  split; [exact Hid | exact Hjournals].
Defined.

Lemma search_unknown_scope_finds_nothing_witness :
  Runs.search
    {| s_query := "implement"; s_scope := Some "Global"; s_type := None |}
    (Scenario.start Scenario.no_repo)
  = (Returned (text_content "No matching journal entries found"),
     {| world := Scenario.world_with Scenario.no_repo; steps := [Pull] |}).
Proof.
  apply (search_unknown_scope_finds_nothing RefGit.git_pull
           PyRe.Plain.pattern PyRe.Plain.re_compile PyRe.Plain.re_search
           {| s_query := "implement"; s_scope := Some "Global"; s_type := None |}
           Scenario.env (Scenario.start Scenario.no_repo) "Global" "implement");
    (reflexivity || discriminate).
Defined.

Lemma search_results_are_trimmed_witness :
  fst (Scenario.search Scenario.no_repo (Scenario.global_search "implement" None))
  = Returned (search_reply (Scenario.found "implement")) /\
  Forall (fun block => block <> EmptyString /\ strip block = block)
    (Scenario.found "implement").
Proof.
  apply (search_results_are_trimmed RefGit.git_pull
           PyRe.Plain.pattern PyRe.Plain.re_compile PyRe.Plain.re_search
           (Scenario.global_search "implement" None) Scenario.env
           (Scenario.start Scenario.no_repo) "implement").
  - reflexivity.
  - vm_compute. repeat constructor.
Defined.

Lemma search_without_journals_finds_nothing_witness :
  fst (Runs.search {| s_query := "anything"; s_scope := None; s_type := None |}
         Runs.fresh)
  = Returned (text_content "No matching journal entries found").
Proof.
  apply (search_without_journals_finds_nothing RefGit.git_pull
           PyRe.Plain.pattern PyRe.Plain.re_compile PyRe.Plain.re_search
           {| s_query := "anything"; s_scope := None; s_type := None |}
           Scenario.env Runs.fresh "anything").
  - intros journal_path Hin. vm_compute in Hin.
    destruct Hin as [<- | [<- | []]]; reflexivity.
  - reflexivity.
Defined.

Lemma search_both_is_global_then_project_witness :
  exists in_global in_project,
    fst (Scenario.search Scenario.no_repo (Scenario.global_search "implement" None))
    = Returned (search_reply in_global) /\
    fst (Scenario.search Scenario.no_repo
           {| s_query := "implement"; s_scope := Some "both"; s_type := None |})
    = Returned (search_reply (in_global ++ in_project)).
Proof.
  destruct (search_both_is_global_then_project RefGit.git_pull
              PyRe.Plain.pattern PyRe.Plain.re_compile PyRe.Plain.re_search
              "implement" None Scenario.env (Scenario.start Scenario.no_repo)
              "implement" eq_refl) as [in_global [in_project [Hg [_ Hb]]]].
  exists in_global, in_project. split; [exact Hg | exact Hb].
Defined.

Lemma search_non_word_type_finds_nothing_witness :
  fst (Scenario.search Scenario.no_repo
         (Scenario.global_search "implement" (Some "to-do")))
  = Returned (text_content "No matching journal entries found").
Proof.
  apply (search_non_word_type_finds_nothing RefGit.git_pull
           PyRe.Plain.pattern PyRe.Plain.re_compile PyRe.Plain.re_search
           (Scenario.global_search "implement" (Some "to-do")) Scenario.env
           (Scenario.start Scenario.no_repo) "to-do" "implement");
    (reflexivity || discriminate).
Defined.

Lemma type_filter_recognizes_written_entries_witness :
  PyRe.search_header Scenario.new_entry = Some "preference" /\
  (type_matches "preference" Scenario.new_entry = true
   <-> "preference" = "preference").
Proof.
  apply (type_filter_recognizes_written_entries
           "User prefers explicit error handling" "preference"
           "2025-10-06 14:30:45" "preference"); reflexivity.
Defined.

